(** * The plugin debug bridge of Theia, embedded in Rocq

    The development follows three source files:
    - [plugin-debug-adapter-contribution.ts]: the executable resolver of a
      contributed debugger ([Module PluginDebugAdapterContribution]);
    - the extension-side bridge [DebugExtImpl] ([Module DebugExt]);
    - the host-side bridge [debug-main.ts] ([Module DebugMain]).

    Promises are modelled by their settled outcome ([Result]); the private
    maps of the classes are [gmap]s; calls that leave a class (the RPC proxy,
    event emitters, child processes) are appended to an effect log in the
    order the code issues them. *)

From Stdlib Require Import ZArith Ascii String.
From stdpp Require Import gmap strings list.

Open Scope string_scope.
Open Scope Z_scope.

(** ** Outcomes of calls that may throw or reject *)

Inductive Result (A : Type) : Type :=
| Ok (a : A)
| Err (msg : string).
Arguments Ok {A} a.
Arguments Err {A} msg.

Definition is_Ok {A} (r : Result A) : bool :=
  match r with Ok _ => true | Err _ => false end.

(** ** JavaScript values that cross the bridge untyped ([any]) *)

#[warnings="-register-all"] Inductive JSVal : Type :=
| JUndefined
| JNull
| JBool (b : bool)
| JNum (z : Z)
| JStr (s : string)
| JArr (items : list JSVal)
| JObj (fields : list (string * JSVal)).

Definition IJSONSchema := JSVal.
Definition IJSONSchemaSnippet := JSVal.

(** ** Truthiness and the [||] operator, as the source relies on them *)

(** An optional string is falsy when it is [undefined] or empty. *)
Definition truthy_str (o : option string) : bool :=
  match o with
  | Some s => negb (String.eqb s "")
  | None => false
  end.

(** [a || b] on optional strings. *)
Definition or_str (a b : option string) : option string :=
  if truthy_str a then a else b.

(** [a || b] on optional objects and arrays: every object is truthy. *)
Definition or_obj {A} (a b : option A) : option A :=
  match a with
  | Some _ => a
  | None => b
  end.

(** [info && info.f], the guarded read of a field of an optional record. *)
Definition and_then {A B} (info : option A) (f : A -> option B) : option B :=
  match info with
  | Some i => f i
  | None => None
  end.

(** ** Package metadata of a contributed debugger *)

Record PlatformSpecificAdapterContribution : Type := {
  program : option string;
  args : option (list string);
  runtime : option string;
  runtimeArgs : option (list string)
}.

Record PluginPackageDebuggersContribution : Type := {
  type : string;
  label : option string;
  languages : option (list string);
  base : PlatformSpecificAdapterContribution;
  winx86 : option PlatformSpecificAdapterContribution;
  win : option PlatformSpecificAdapterContribution;
  windows : option PlatformSpecificAdapterContribution;
  osx : option PlatformSpecificAdapterContribution;
  linux : option PlatformSpecificAdapterContribution;
  configurationSnippets : option (list (string * JSVal));
  adapterExecutableCommand : option string
}.

(** The two shapes of an executable descriptor, and the shapeless rest. *)
Inductive DebugAdapterExecutable : Type :=
| ExecCommand (command : string) (args : list string)
| ExecModule (modulePath : string) (args : list string)
| ExecOther.

(** The ambient process: [isWindows], [isOSX] and [process.env]. *)
Record Process : Type := {
  isWindows : bool;
  isOSX : bool;
  env : gmap string string
}.

Definition hasOwnProperty (e : gmap string string) (k : string) : bool :=
  bool_decide (is_Some (e !! k)).

(** ** POSIX [path.join] of two segments

    Node's [path.join] is not part of the bridge; the resolver below takes the
    join as a parameter.  [posix_join] is the POSIX variant for two
    arguments, used to run the resolver on concrete inputs. *)

Fixpoint split_slash (acc : string) (s : string) : list string :=
  match s with
  | EmptyString => [acc]
  | String c rest =>
      if Ascii.eqb c "/"%char then acc :: split_slash "" rest
      else split_slash (acc ++ String c "") rest
  end.

(** [normalizeString]: drops empty and [.] segments, resolves [..]. *)
Fixpoint normalize_segments (allowAboveRoot : bool) (done : list string)
    (segs : list string) : list string :=
  match segs with
  | [] => rev done
  | seg :: rest =>
      if String.eqb seg "" || String.eqb seg "." then
        normalize_segments allowAboveRoot done rest
      else if String.eqb seg ".." then
        match done with
        | prev :: done' =>
            if String.eqb prev ".." then
              normalize_segments allowAboveRoot (".." :: done) rest
            else normalize_segments allowAboveRoot done' rest
        | [] =>
            if allowAboveRoot then
              normalize_segments allowAboveRoot [".."] rest
            else normalize_segments allowAboveRoot [] rest
        end
      else normalize_segments allowAboveRoot (seg :: done) rest
  end.

Fixpoint join_with_slash (segs : list string) : string :=
  match segs with
  | [] => ""
  | [s] => s
  | s :: rest => s ++ "/" ++ join_with_slash rest
  end.

Fixpoint last_char (s : string) : option Ascii.ascii :=
  match s with
  | EmptyString => None
  | String c EmptyString => Some c
  | String _ rest => last_char rest
  end.

Definition posix_normalize (p : string) : string :=
  match p with
  | EmptyString => "."
  | String c0 _ =>
      let isAbsolute := Ascii.eqb c0 "/"%char in
      let trailingSeparator :=
        match last_char p with
        | Some c => Ascii.eqb c "/"%char
        | None => false
        end in
      let body := join_with_slash
                    (normalize_segments (negb isAbsolute) [] (split_slash "" p)) in
      let body := if String.eqb body "" && negb isAbsolute then "." else body in
      let body := if negb (String.eqb body "") && trailingSeparator
                  then body ++ "/" else body in
      if isAbsolute then "/" ++ body else body
  end.

Definition posix_join (a b : string) : string :=
  match String.eqb a "", String.eqb b "" with
  | true, true => "."
  | true, false => posix_normalize b
  | false, true => posix_normalize a
  | false, false => posix_normalize (a ++ "/" ++ b)
  end.

(** ** [PluginDebugAdapterContribution] (plugin-debug-adapter-contribution.ts) *)

Module PluginDebugAdapterContribution.

(** [Object.keys(o)]: throws a [TypeError] on [undefined]. *)
Definition Object_keys {A} (o : option (list (string * A))) : Result (list string) :=
  match o with
  | Some fields => Ok (map fst fields)
  | None => Err "TypeError: Cannot convert undefined or null to object"
  end.

(** [o[k]] on an object that is known to be defined. *)
Definition Object_get {A} (o : option (list (string * A))) (k : string) : option A :=
  match o with
  | Some fields => snd <$> List.find (fun kv => String.eqb (fst kv) k) fields
  | None => None
  end.

Definition getSupportedLanguages (packageContribution : PluginPackageDebuggersContribution)
    : Result (list string) :=
  Ok (default [] (languages packageContribution)).

(** [toPlatformInfo(executable)] *)
Definition toPlatformInfo (process : Process)
    (executable : PluginPackageDebuggersContribution)
    : option PlatformSpecificAdapterContribution :=
  if isWindows process && negb (hasOwnProperty (env process) "PROCESSOR_ARCHITEW6432") then
    or_obj (or_obj (winx86 executable) (win executable)) (windows executable)
  else if isWindows process then
    or_obj (win executable) (windows executable)
  else if isOSX process then
    osx executable
  else
    linux executable.

(** [getSchemaAttributes()] *)
Definition getSchemaAttributes (packageContribution : PluginPackageDebuggersContribution)
    : Result (list (option IJSONSchema)) :=
  let snippets := configurationSnippets packageContribution in
  if bool_decide (is_Some snippets) then Ok []
  else
    match Object_keys snippets with
    | Ok keys => Ok (map (fun request => Object_get snippets request) keys)
    | Err e => Err e
    end.

(** [getConfigurationSnippets()] *)
Definition getConfigurationSnippets (packageContribution : PluginPackageDebuggersContribution)
    : Result (list (string * IJSONSchemaSnippet)) :=
  Ok (default [] (configurationSnippets packageContribution)).

Section Resolver.

(** [path.join] of the platform Node runs on. *)
Variable path_join : string -> string -> string.
Variable process : Process.

(** [provideDebugAdapterExecutable(debugConfiguration)]; the configuration
    is not read by the method. *)
Definition provideDebugAdapterExecutable
    (packageContribution : PluginPackageDebuggersContribution)
    (pluginPath : string) : Result DebugAdapterExecutable :=
  let info := toPlatformInfo process packageContribution in
  let program0 := or_str (and_then info program) (program (base packageContribution)) in
  if negb (truthy_str program0) then
    Err "It is not possible to provide debug adapter executable. Program not found."
  else
    let program1 := path_join pluginPath (default "" program0) in
    let programArgs :=
      default [] (or_obj (or_obj (and_then info args) (args (base packageContribution)))
                         (Some [])) in
    let runtime0 := or_str (and_then info runtime) (runtime (base packageContribution)) in
    let runtime1 :=
      if truthy_str runtime0 && String.prefix "./" (default "" runtime0)
      then Some (path_join pluginPath (default "" runtime0))
      else runtime0 in
    let runtimeArgs0 :=
      default [] (or_obj (or_obj (and_then info runtimeArgs)
                                 (runtimeArgs (base packageContribution)))
                         (Some [])) in
    let command := if truthy_str runtime1 then default "" runtime1 else program1 in
    let args := if truthy_str runtime1
                then (runtimeArgs0 ++ [program1] ++ programArgs)%list
                else programArgs in
    Ok (ExecCommand command args).

End Resolver.

End PluginDebugAdapterContribution.


(** ** Breakpoints in wire form (api/model) *)

Module Range.
Record t : Type := {
  startLineNumber : Z;
  startColumn : Z;
  endLineNumber : Z;
  endColumn : Z
}.
End Range.

Module Location.
Record t (U : Type) : Type := {
  uri : U;
  range : Range.t
}.
Arguments uri {U} _.
Arguments range {U} _.
End Location.

Module Breakpoint.
Record t (U : Type) : Type := {
  enabled : bool;
  condition : option string;
  hitCondition : option string;
  logMessage : option string;
  location : option (Location.t U)
}.
Arguments enabled {U} _.
Arguments condition {U} _.
Arguments hitCondition {U} _.
Arguments logMessage {U} _.
Arguments location {U} _.
End Breakpoint.

(** ** Debug configurations and descriptions (@theia/debug, common) *)

Module DebugConfiguration.
Record t : Type := {
  type : string;
  name : string;
  request : string
}.
End DebugConfiguration.

Module DebuggerDescription.
Record t : Type := {
  type : string;
  label : option string
}.
End DebuggerDescription.

(** ** The calls of the [DebugMain] interface, as the extension side issues
    them through its RPC proxy.  The three arguments of [CustomRequest] are the
    three positional slots of [$customRequest(sessionId, command, args?)] as
    the host receives them: the first is a string at every call site, the
    other two are whatever the caller passed there ([JUndefined] for a slot the
    caller left out). *)

Inductive MainCall (U : Type) : Type :=
| AppendToDebugConsole (value : string)
| AppendLineToDebugConsole (value : string)
| RegisterDebugConfigurationProvider (contributorId : string)
    (description : DebuggerDescription.t)
| UnregisterDebugConfigurationProvider (contributorId : string)
| AddBreakpoints (breakpoints : list (Breakpoint.t U))
| RemoveBreakpoints (breakpoints : list (Breakpoint.t U))
| CustomRequest (sessionId : string) (command : JSVal) (args : JSVal).
Arguments AppendToDebugConsole {U} value.
Arguments AppendLineToDebugConsole {U} value.
Arguments RegisterDebugConfigurationProvider {U} contributorId description.
Arguments UnregisterDebugConfigurationProvider {U} contributorId.
Arguments AddBreakpoints {U} breakpoints.
Arguments RemoveBreakpoints {U} breakpoints.
Arguments CustomRequest {U} sessionId command args.

(** ** The interface of a debug adapter contribution (@theia/debug,
    debug-model).  Every member is optional; a present member is given by the
    settled outcome of the promise it returns. *)

Module DebugAdapterContribution.
Record t : Type := {
  type : string;
  languages : option (Result (option (list string)));
  getSchemaAttributes : option (Result (list IJSONSchema));
  getConfigurationSnippets : option (Result (list IJSONSchemaSnippet));
  provideDebugConfigurations :
    option (option string -> Result (option (list DebugConfiguration.t)));
  resolveDebugConfiguration :
    option (DebugConfiguration.t -> option string ->
            Result (option DebugConfiguration.t));
  provideDebugAdapterExecutable :
    option (DebugConfiguration.t -> Result (option DebugAdapterExecutable))
}.
End DebugAdapterContribution.

(** [theia.DebugConfigurationProvider]: both methods optional.  The provider
    is always called with an [undefined] folder. *)
Module DebugConfigurationProvider.
Record t : Type := {
  provideDebugConfigurations : option (Result (option (list DebugConfiguration.t)));
  resolveDebugConfiguration :
    option (DebugConfiguration.t -> Result (option DebugConfiguration.t))
}.
End DebugConfigurationProvider.

(** A running child process and the channel around its standard streams. *)
Definition ChildProcess := nat.

Module CommunicationProvider.
Record t : Type := {
  childProcess : ChildProcess
}.
End CommunicationProvider.

Definition Connection := string.

(** [PluginDebugSession]: the constructor stores its four arguments and reads
    [type] and [name] from the configuration.  The stored [customRequest]
    closure is given by the proxy call it issues when invoked. *)
Module PluginDebugSession.
Record t (U : Type) : Type := {
  id : string;
  configuration : DebugConfiguration.t;
  communicationProvider : CommunicationProvider.t;
  customRequest : string -> JSVal -> MainCall U;
  type : string;
  name : string
}.
Arguments id {U} _.
Arguments configuration {U} _.
Arguments communicationProvider {U} _.
Arguments customRequest {U} _ _ _.
Arguments type {U} _.
Arguments name {U} _.

Definition new {U} (id : string) (configuration : DebugConfiguration.t)
    (communicationProvider : CommunicationProvider.t)
    (customRequest : string -> JSVal -> MainCall U) : t U :=
  {| id := id;
     configuration := configuration;
     communicationProvider := communicationProvider;
     customRequest := customRequest;
     type := DebugConfiguration.type configuration;
     name := DebugConfiguration.name configuration |}.
End PluginDebugSession.

(** ** [DebugExtImpl], the extension side of the bridge *)

Module DebugExt.

(** What the class does to the outside, in the order it does it. *)
Inductive Effect (U : Type) : Type :=
| ProxyCall (call : MainCall U)
| FireCustomEvent (event : string) (body : JSVal) (session : PluginDebugSession.t U)
| FireStart (session : PluginDebugSession.t U)
| FireTerminate (session : PluginDebugSession.t U)
| FireChangeActive (session : option (PluginDebugSession.t U))
| FireChangeBreakpoints (added removed changed : list (Breakpoint.t U))
| ExecuteCommand (command : string)
| Spawn (command : string) (args : list string)
| Fork (modulePath : string) (args : list string)
| EnsureConnection (sessionId : string)
| SessionStart (sessionId : string) (connection : Connection)
| SessionStop (sessionId : string).
Arguments ProxyCall {U} call.
Arguments FireCustomEvent {U} event body session.
Arguments FireStart {U} session.
Arguments FireTerminate {U} session.
Arguments FireChangeActive {U} session.
Arguments FireChangeBreakpoints {U} added removed changed.
Arguments ExecuteCommand {U} command.
Arguments Spawn {U} command args.
Arguments Fork {U} modulePath args.
Arguments EnsureConnection {U} sessionId.
Arguments SessionStart {U} sessionId connection.
Arguments SessionStop {U} sessionId.

(** The fields of [DebugExtImpl].  [connectionExt] and [commandRegistryExt]
    stay [undefined] until [inject] runs; [uuids] counts the identifiers
    drawn from [uuid.v4] so far; [effects] is the log, oldest first. *)
Record State (U : Type) : Type := {
  debugSessions : gmap string (PluginDebugSession.t U);
  debugAdapterContributions : gmap string DebugAdapterContribution.t;
  packageContributions : gmap string PluginPackageDebuggersContribution;
  connectionExt : option (string -> Result Connection);
  commandRegistryExt : option (string -> Result (option DebugAdapterExecutable));
  activeDebugSession : option (PluginDebugSession.t U);
  breakpoints : list (Breakpoint.t U);
  uuids : nat;
  effects : list (Effect U)
}.
Arguments debugSessions {U} _.
Arguments debugAdapterContributions {U} _.
Arguments packageContributions {U} _.
Arguments connectionExt {U} _.
Arguments commandRegistryExt {U} _.
Arguments activeDebugSession {U} _.
Arguments breakpoints {U} _.
Arguments uuids {U} _.
Arguments effects {U} _.

(** Code of other packages the class calls into. *)
Record Collaborators : Type := {
  (** [uuid.v4()]: the n-th identifier drawn *)
  uuid_v4 : nat -> string;
  (** members a [DebugPluginContribution] inherits from
      [VSCodeDebugAdapterContribution(debugType, pluginPath)] *)
  VSCodeDebugAdapterContribution : string -> string -> DebugAdapterContribution.t;
  (** [child_process.spawn] and [child_process.fork] *)
  spawn : string -> list string -> Result ChildProcess;
  fork : string -> list string -> Result ChildProcess;
  (** [DebugAdapterSessionImpl.start]: whether the call throws; and [stop]:
      how the promise it returns settles *)
  session_start : string -> Connection -> Result unit;
  session_stop : string -> Result unit
}.

Section Ext.
Context {U : Type}.
Variable world : Collaborators.

(** *** A state and error monad for the methods of the class *)

Definition M (A : Type) : Type := State U -> Result A * State U.

Definition ret {A} (a : A) : M A := fun st => (Ok a, st).

Definition throw {A} (msg : string) : M A := fun st => (Err msg, st).

Definition bind {A B} (m : M A) (k : A -> M B) : M B :=
  fun st =>
    match m st with
    | (Ok a, st') => k a st'
    | (Err e, st') => (Err e, st')
    end.

Definition get : M (State U) := fun st => (Ok st, st).

Definition modify (f : State U -> State U) : M unit := fun st => (Ok tt, f st).

(** settle a promise, or run a call that may throw *)
Definition await {A} (r : Result A) : M A := fun st => (r, st).

Definition perform (e : Effect U) : M unit :=
  modify (fun st =>
    {| debugSessions := debugSessions st;
       debugAdapterContributions := debugAdapterContributions st;
       packageContributions := packageContributions st;
       connectionExt := connectionExt st;
       commandRegistryExt := commandRegistryExt st;
       activeDebugSession := activeDebugSession st;
       breakpoints := breakpoints st;
       uuids := uuids st;
       effects := (effects st ++ [e])%list |}).

(** the state after further effects have been logged *)
Definition logged (es : list (Effect U)) (st : State U) : State U :=
  {| debugSessions := debugSessions st;
     debugAdapterContributions := debugAdapterContributions st;
     packageContributions := packageContributions st;
     connectionExt := connectionExt st;
     commandRegistryExt := commandRegistryExt st;
     activeDebugSession := activeDebugSession st;
     breakpoints := breakpoints st;
     uuids := uuids st;
     effects := (effects st ++ es)%list |}.

Definition set_debugSessions
    (f : gmap string (PluginDebugSession.t U) -> gmap string (PluginDebugSession.t U))
    : M unit :=
  modify (fun st =>
    {| debugSessions := f (debugSessions st);
       debugAdapterContributions := debugAdapterContributions st;
       packageContributions := packageContributions st;
       connectionExt := connectionExt st;
       commandRegistryExt := commandRegistryExt st;
       activeDebugSession := activeDebugSession st;
       breakpoints := breakpoints st;
       uuids := uuids st;
       effects := effects st |}).

Definition set_contributions
    (f : gmap string DebugAdapterContribution.t -> gmap string DebugAdapterContribution.t)
    (g : gmap string PluginPackageDebuggersContribution ->
         gmap string PluginPackageDebuggersContribution) : M unit :=
  modify (fun st =>
    {| debugSessions := debugSessions st;
       debugAdapterContributions := f (debugAdapterContributions st);
       packageContributions := g (packageContributions st);
       connectionExt := connectionExt st;
       commandRegistryExt := commandRegistryExt st;
       activeDebugSession := activeDebugSession st;
       breakpoints := breakpoints st;
       uuids := uuids st;
       effects := effects st |}).

Definition set_breakpoints (all : list (Breakpoint.t U)) : M unit :=
  modify (fun st =>
    {| debugSessions := debugSessions st;
       debugAdapterContributions := debugAdapterContributions st;
       packageContributions := packageContributions st;
       connectionExt := connectionExt st;
       commandRegistryExt := commandRegistryExt st;
       activeDebugSession := activeDebugSession st;
       breakpoints := all;
       uuids := uuids st;
       effects := effects st |}).

(** [uuid.v4()] *)
Definition uuid : M string :=
  fun st =>
    (Ok (uuid_v4 world (uuids st)),
     {| debugSessions := debugSessions st;
        debugAdapterContributions := debugAdapterContributions st;
        packageContributions := packageContributions st;
        connectionExt := connectionExt st;
        commandRegistryExt := commandRegistryExt st;
        activeDebugSession := activeDebugSession st;
        breakpoints := breakpoints st;
        uuids := S (uuids st);
        effects := effects st |}).

Notation "'let*' x ':=' m 'in' k" := (bind m (fun x => k))
  (at level 10, x binder, m at level 100, k at level 200).
Notation "m ';;' k" := (bind m (fun _ => k))
  (at level 100, k at level 200, right associativity).

(** *** [DebugPluginContribution extends VSCodeDebugAdapterContribution] *)

Definition DebugPluginContribution (debugType : string)
    (provider : DebugConfigurationProvider.t) (pluginPath : string)
    : DebugAdapterContribution.t :=
  let super := VSCodeDebugAdapterContribution world debugType pluginPath in
  {| DebugAdapterContribution.type := DebugAdapterContribution.type super;
     DebugAdapterContribution.languages := DebugAdapterContribution.languages super;
     DebugAdapterContribution.getSchemaAttributes :=
       DebugAdapterContribution.getSchemaAttributes super;
     DebugAdapterContribution.getConfigurationSnippets :=
       DebugAdapterContribution.getConfigurationSnippets super;
     DebugAdapterContribution.provideDebugConfigurations :=
       Some (fun workspaceFolderUri =>
         match DebugConfigurationProvider.provideDebugConfigurations provider with
         | Some promise =>
             match promise with
             | Ok (Some result) => Ok (Some result)
             | Ok None => Ok (Some [])
             | Err e => Err e
             end
         | None => Ok (Some [])
         end);
     DebugAdapterContribution.resolveDebugConfiguration :=
       Some (fun config workspaceFolderUri =>
         match DebugConfigurationProvider.resolveDebugConfiguration provider with
         | Some resolve => resolve config
         | None => Ok None
         end);
     DebugAdapterContribution.provideDebugAdapterExecutable :=
       DebugAdapterContribution.provideDebugAdapterExecutable super |}.

(** *** Plugin-facing methods *)

Definition inject (connection : string -> Result Connection)
    (commands : string -> Result (option DebugAdapterExecutable)) : M unit :=
  modify (fun st =>
    {| debugSessions := debugSessions st;
       debugAdapterContributions := debugAdapterContributions st;
       packageContributions := packageContributions st;
       connectionExt := Some connection;
       commandRegistryExt := Some commands;
       activeDebugSession := activeDebugSession st;
       breakpoints := breakpoints st;
       uuids := uuids st;
       effects := effects st |}).

Definition addBreakpoints (bps : list (Breakpoint.t U)) : M unit :=
  perform (ProxyCall (AddBreakpoints bps)).

Definition removeBreakpoints (bps : list (Breakpoint.t U)) : M unit :=
  perform (ProxyCall (RemoveBreakpoints bps)).

(** [registerDebugConfigurationProvider]: returns the contribution id the
    returned disposer is bound to. *)
Definition registerDebugConfigurationProvider (debugType : string)
    (provider : DebugConfigurationProvider.t)
    (packageContribution : PluginPackageDebuggersContribution)
    (pluginPath : string) : M string :=
  let* contributionId := uuid in
  let pluginContribution := DebugPluginContribution debugType provider pluginPath in
  let description :=
    {| DebuggerDescription.type := debugType;
       DebuggerDescription.label := label packageContribution |} in
  set_contributions (insert contributionId pluginContribution)
                    (insert contributionId packageContribution) ;;
  perform (ProxyCall (RegisterDebugConfigurationProvider contributionId description)) ;;
  ret contributionId.

(** the body of the disposer returned by the registration *)
Definition dispose_registration (contributionId : string) : M unit :=
  set_contributions (delete contributionId) (delete contributionId) ;;
  perform (ProxyCall (UnregisterDebugConfigurationProvider contributionId)).

(** *** Notifications from the host side *)

Definition onSessionCustomEvent (sessionId event : string) (body : JSVal) : M unit :=
  let* st := get in
  match debugSessions st !! sessionId with
  | Some session => perform (FireCustomEvent event body session)
  | None => ret tt
  end.

Definition sessionDidCreate (sessionId : string) : M unit :=
  let* st := get in
  match debugSessions st !! sessionId with
  | Some session => perform (FireStart session)
  | None => ret tt
  end.

Definition sessionDidDestroy (sessionId : string) : M unit :=
  let* st := get in
  match debugSessions st !! sessionId with
  | Some session => perform (FireTerminate session)
  | None => ret tt
  end.

(** [$sessionDidChange]: the looked-up session is bound to a local constant
    and handed to the emitter. *)
Definition sessionDidChange (sessionId : option string) : M unit :=
  let* st := get in
  let activeDebugSession_local :=
    if truthy_str sessionId
    then debugSessions st !! default "" sessionId
    else None in
  perform (FireChangeActive activeDebugSession_local).

Definition breakpointsDidChange (all added removed changed : list (Breakpoint.t U))
    : M unit :=
  set_breakpoints all ;;
  perform (FireChangeBreakpoints added removed changed).

(** *** Sessions *)

Definition getExecutable (packageContribution : option PluginPackageDebuggersContribution)
    (adapterContribution : DebugAdapterContribution.t)
    (debugConfiguration : DebugConfiguration.t) : M DebugAdapterExecutable :=
  let notPossible := throw "It is not possible to provide DebugAdapterExecutable" in
  match and_then packageContribution adapterExecutableCommand with
  | Some command =>
      let* st := get in
      match commandRegistryExt st with
      | None => throw "TypeError: Cannot read property 'executeCommand' of undefined"
      | Some executeCommand =>
          perform (ExecuteCommand command) ;;
          let* result := await (executeCommand command) in
          match result with
          | Some executable => ret executable
          | None => notPossible
          end
      end
  | None =>
      match DebugAdapterContribution.provideDebugAdapterExecutable adapterContribution with
      | Some provide =>
          let* executable := await (provide debugConfiguration) in
          match executable with
          | Some executable => ret executable
          | None => notPossible
          end
      | None => notPossible
      end
  end.

(** [startDebugAdapter(executable)] *)
Definition startDebugAdapter (executable : DebugAdapterExecutable)
    : M CommunicationProvider.t :=
  match executable with
  | ExecCommand command args =>
      perform (Spawn command args) ;;
      let* childProcess := await (spawn world command args) in
      ret {| CommunicationProvider.childProcess := childProcess |}
  | ExecModule modulePath args =>
      perform (Fork modulePath args) ;;
      let* childProcess := await (fork world modulePath args) in
      ret {| CommunicationProvider.childProcess := childProcess |}
  | ExecOther =>
      throw "It is not possible to launch debug adapter with the command: {}"
  end.

(** [$createDebugSession(contributionId, debugConfiguration)] *)
Definition createDebugSession (contributionId : string)
    (debugConfiguration : DebugConfiguration.t) : M string :=
  let* st := get in
  match debugAdapterContributions st !! contributionId with
  | None =>
      throw ("Debug adapter contribution '" ++ contributionId
             ++ "' not found, configuration type: "
             ++ DebugConfiguration.type debugConfiguration)
  | Some adapterContribution =>
      let packageContribution := packageContributions st !! contributionId in
      let* executable :=
        getExecutable packageContribution adapterContribution debugConfiguration in
      let* communicationProvider := startDebugAdapter executable in
      let* sessionId := uuid in
      let session :=
        PluginDebugSession.new sessionId debugConfiguration communicationProvider
          (fun command args => CustomRequest command args JUndefined) in
      set_debugSessions (insert sessionId session) ;;
      let* st := get in
      match connectionExt st with
      | None => throw "TypeError: Cannot read property 'ensureConnection' of undefined"
      | Some ensureConnection =>
          perform (EnsureConnection sessionId) ;;
          let* connection := await (ensureConnection sessionId) in
          perform (SessionStart sessionId connection) ;;
          await (session_start world sessionId connection) ;;
          ret sessionId
      end
  end.

(** [debugAdapterSession.stop()] *)
Definition stop (session : PluginDebugSession.t U) : M unit :=
  perform (SessionStop (PluginDebugSession.id session)) ;;
  await (session_stop world (PluginDebugSession.id session)).

(** [$terminateDebugSession(sessionId)] *)
Definition terminateDebugSession (sessionId : string) : M unit :=
  let* st := get in
  match debugSessions st !! sessionId with
  | Some debugAdapterSession =>
      set_debugSessions (delete sessionId) ;;
      stop debugAdapterSession
  | None => ret tt
  end.

(** *** Capability queries *)

Definition getSupportedLanguages (contributionId : string) : M (list string) :=
  let* st := get in
  match debugAdapterContributions st !! contributionId with
  | Some adapterContribution =>
      match DebugAdapterContribution.languages adapterContribution with
      | Some promise =>
          let* languages := await promise in
          ret (default [] languages)
      | None => ret []
      end
  | None => ret []
  end.

Definition getSchemaAttributes (contributionId : string) : M (list IJSONSchema) :=
  let* st := get in
  match debugAdapterContributions st !! contributionId with
  | Some adapterContribution =>
      match DebugAdapterContribution.getSchemaAttributes adapterContribution with
      | Some promise => await promise
      | None => ret []
      end
  | None => ret []
  end.

Definition getConfigurationSnippets (contributionId : string)
    : M (list IJSONSchemaSnippet) :=
  let* st := get in
  match debugAdapterContributions st !! contributionId with
  | Some adapterContribution =>
      match DebugAdapterContribution.getConfigurationSnippets adapterContribution with
      | Some promise => await promise
      | None => ret []
      end
  | None => ret []
  end.

Definition provideDebugConfigurations (contributionId : string) (folder : option string)
    : M (list DebugConfiguration.t) :=
  let* st := get in
  match debugAdapterContributions st !! contributionId with
  | Some adapterContribution =>
      match DebugAdapterContribution.provideDebugConfigurations adapterContribution with
      | Some provide =>
          let* result := await (provide None) in
          match result with
          | Some result => ret result
          | None => ret []
          end
      | None => ret []
      end
  | None => ret []
  end.

Definition resolveDebugConfigurations (contributionId : string)
    (debugConfiguration : DebugConfiguration.t) (folder : option string)
    : M (option DebugConfiguration.t) :=
  let* st := get in
  match debugAdapterContributions st !! contributionId with
  | Some adapterContribution =>
      match DebugAdapterContribution.resolveDebugConfiguration adapterContribution with
      | Some resolve => await (resolve debugConfiguration folder)
      | None => ret None
      end
  | None => ret None
  end.

End Ext.

(** The state of a freshly constructed [DebugExtImpl]. *)
Definition initial {U : Type} : State U :=
  {| debugSessions := ∅;
     debugAdapterContributions := ∅;
     packageContributions := ∅;
     connectionExt := None;
     commandRegistryExt := None;
     activeDebugSession := None;
     breakpoints := [];
     uuids := 0%nat;
     effects := [] |}.

(** The session object [$createDebugSession] constructs for a minted id. *)
Definition minted {U : Type} (sessionId : string)
    (debugConfiguration : DebugConfiguration.t)
    (communicationProvider : CommunicationProvider.t) : PluginDebugSession.t U :=
  PluginDebugSession.new sessionId debugConfiguration communicationProvider
    (fun command args => CustomRequest command args JUndefined).

End DebugExt.

(** ** The calls of the [DebugExt] interface the host side issues *)

Inductive ExtCall (U : Type) : Type :=
| OnSessionCustomEvent (sessionId event : string) (body : JSVal)
| SessionDidCreate (sessionId : string)
| SessionDidDestroy (sessionId : string)
| SessionDidChange (sessionId : option string)
| BreakpointsDidChange (all added removed changed : list (Breakpoint.t U)).
Arguments OnSessionCustomEvent {U} sessionId event body.
Arguments SessionDidCreate {U} sessionId.
Arguments SessionDidDestroy {U} sessionId.
Arguments SessionDidChange {U} sessionId.
Arguments BreakpointsDidChange {U} all added removed changed.

(** The RPC proxy runs the method of the same name on the extension side. *)
Definition deliver_to_ext {U : Type} (call : ExtCall U) : DebugExt.M unit :=
  match call with
  | OnSessionCustomEvent sessionId event body =>
      DebugExt.onSessionCustomEvent sessionId event body
  | SessionDidCreate sessionId => DebugExt.sessionDidCreate sessionId
  | SessionDidDestroy sessionId => DebugExt.sessionDidDestroy sessionId
  | SessionDidChange sessionId => DebugExt.sessionDidChange sessionId
  | BreakpointsDidChange all added removed changed =>
      DebugExt.breakpointsDidChange all added removed changed
  end.

(** the calls of one relay, delivered in order *)
Fixpoint deliver_all_to_ext {U : Type} (calls : list (ExtCall U)) : DebugExt.M unit :=
  match calls with
  | [] => DebugExt.ret tt
  | call :: rest => DebugExt.bind (deliver_to_ext call) (fun _ => deliver_all_to_ext rest)
  end.

(** ** Breakpoints in the host's internal form (@theia/debug, browser) *)

Module SourceBreakpoint.
Record Raw : Type := {
  line : Z;
  column : option Z;
  condition : option string;
  hitCondition : option string;
  logMessage : option string
}.
Record t : Type := {
  uri : string;
  enabled : bool;
  raw : Raw
}.
#[global] Instance Raw_eq_dec : EqDecision Raw.
Proof. solve_decision. Defined.
#[global] Instance eq_dec : EqDecision t.
Proof. solve_decision. Defined.
End SourceBreakpoint.

(** [new DebugBreakpoint(origin, labelProvider, breakpointsManager,
    editorManager, session)]: the origin and the session it is bound to; the
    three services are the host's singletons. *)
Module DebugBreakpoint.
Record t : Type := {
  origin : SourceBreakpoint.t;
  session : option string
}.
End DebugBreakpoint.

(** A session of the host's session manager. *)
Module DebugSession.
Record t : Type := {
  id : string;
  sendCustomRequest : JSVal -> JSVal -> Result JSVal
}.
End DebugSession.

(** ** The calls of the [DebugExt] interface that return a value *)

Inductive ExtRequest : Type :=
| ProvideDebugConfigurations (contributionId : string) (folder : option string)
| ResolveDebugConfigurations (contributionId : string)
    (debugConfiguration : DebugConfiguration.t) (folder : option string)
| GetSupportedLanguages (contributionId : string)
| GetSchemaAttributes (contributionId : string)
| GetConfigurationSnippets (contributionId : string)
| CreateDebugSession (contributionId : string) (debugConfiguration : DebugConfiguration.t)
| TerminateDebugSession (sessionId : string).

Inductive ExtResponse : Type :=
| Configurations (result : list DebugConfiguration.t)
| Configuration (result : option DebugConfiguration.t)
| Languages (result : list string)
| SchemaAttributes (result : list IJSONSchema)
| ConfigurationSnippets (result : list IJSONSchemaSnippet)
| SessionId (result : string)
| Void.

(** The RPC proxy runs the method of the same name on the extension side and
    hands back what it resolves with. *)
Definition serve_on_ext {U : Type} (world : DebugExt.Collaborators) (request : ExtRequest)
    : DebugExt.M (U:=U) ExtResponse :=
  match request with
  | ProvideDebugConfigurations contributionId folder =>
      DebugExt.bind (DebugExt.provideDebugConfigurations contributionId folder)
        (fun r => DebugExt.ret (Configurations r))
  | ResolveDebugConfigurations contributionId debugConfiguration folder =>
      DebugExt.bind
        (DebugExt.resolveDebugConfigurations contributionId debugConfiguration folder)
        (fun r => DebugExt.ret (Configuration r))
  | GetSupportedLanguages contributionId =>
      DebugExt.bind (DebugExt.getSupportedLanguages contributionId)
        (fun r => DebugExt.ret (Languages r))
  | GetSchemaAttributes contributionId =>
      DebugExt.bind (DebugExt.getSchemaAttributes contributionId)
        (fun r => DebugExt.ret (SchemaAttributes r))
  | GetConfigurationSnippets contributionId =>
      DebugExt.bind (DebugExt.getConfigurationSnippets contributionId)
        (fun r => DebugExt.ret (ConfigurationSnippets r))
  | CreateDebugSession contributionId debugConfiguration =>
      DebugExt.bind (DebugExt.createDebugSession world contributionId debugConfiguration)
        (fun r => DebugExt.ret (SessionId r))
  | TerminateDebugSession sessionId =>
      DebugExt.bind (DebugExt.terminateDebugSession world sessionId)
        (fun _ => DebugExt.ret Void)
  end.

(** [DebugPluginContributor] (@theia/debug, browser): the contributor the host
    hands to its contribution manager.  Each method is given by the request
    it sends to the extension side; [getConnectionFactory] by the session id
    whose connection it ensures. *)
Module DebugPluginContributor.
Record t : Type := {
  description : DebuggerDescription.t;
  provideDebugConfigurations : option string -> ExtRequest;
  resolveDebugConfiguration : DebugConfiguration.t -> option string -> ExtRequest;
  getSupportedLanguages : ExtRequest;
  getSchemaAttributes : ExtRequest;
  getConfigurationSnippets : ExtRequest;
  createDebugSession : DebugConfiguration.t -> ExtRequest;
  terminateDebugSession : string -> ExtRequest;
  getConnectionFactory : string -> string
}.
End DebugPluginContributor.

(** [DebugSessionOptions] and [WorkspaceFolder] *)
Module DebugSessionOptions.
Record t : Type := {
  configuration : DebugConfiguration.t;
  workspaceFolderUri : option string
}.
End DebugSessionOptions.

Module WorkspaceFolder.
Record t (U : Type) : Type := {
  uri : U;
  name : string;
  index : nat
}.
Arguments uri {U} _.
Arguments name {U} _.
Arguments index {U} _.
End WorkspaceFolder.

(** ** [DebugMainImpl], the host side of the bridge *)

Module DebugMain.

(** The host authorities the bridge reads: the breakpoint manager and the
    session manager. *)
Record Authorities : Type := {
  (** [breakpointsManager.getBreakpoints(uri?)] *)
  getBreakpoints : option string -> list SourceBreakpoint.t;
  (** [sessionManager.getSession(sessionId)] *)
  getSession : string -> option DebugSession.t;
  (** [sessionManager.currentSession] *)
  currentSession : option DebugSession.t
}.

Section Host.
(** [vscode-uri]: the representation of a URI and its three conversions. *)
Context {U : Type}.
Variable URI_parse : string -> U.
Variable URI_revive : U -> U.
Variable URI_toString : U -> string.
Variable host : Authorities.

(** [x || 0] on an optional number *)
Definition or_zero (x : option Z) : Z :=
  match x with
  | Some z => z
  | None => 0
  end.

(** the body of the [map] callback of [toInternalBreakpoints] *)
Definition toInternalBreakpoint (breakpoint : Breakpoint.t U)
    (location : Location.t U) : DebugBreakpoint.t :=
  let uri := URI_revive (Location.uri location) in
  let uriString := URI_toString uri in
  let origin :=
    {| SourceBreakpoint.uri := uriString;
       SourceBreakpoint.enabled := true;
       SourceBreakpoint.raw :=
         {| SourceBreakpoint.line := Range.startLineNumber (Location.range location);
            SourceBreakpoint.column :=
              Some (Range.startColumn (Location.range location));
            SourceBreakpoint.condition := Breakpoint.condition breakpoint;
            SourceBreakpoint.hitCondition := Breakpoint.hitCondition breakpoint;
            SourceBreakpoint.logMessage := Breakpoint.logMessage breakpoint |} |} in
  {| DebugBreakpoint.origin := origin;
     DebugBreakpoint.session := DebugSession.id <$> currentSession host |}.

(** [toInternalBreakpoints]: [filter] on the presence of a location, then
    [map]. *)
Definition toInternalBreakpoints (breakpoints : list (Breakpoint.t U))
    : list DebugBreakpoint.t :=
  omap (fun breakpoint =>
          toInternalBreakpoint breakpoint <$> Breakpoint.location breakpoint)
       (List.filter (fun breakpoint =>
                       bool_decide (is_Some (Breakpoint.location breakpoint)))
                    breakpoints).

Definition toTheiaPluginApiBreakpoint (b : SourceBreakpoint.t) : Breakpoint.t U :=
  let raw := SourceBreakpoint.raw b in
  {| Breakpoint.enabled := SourceBreakpoint.enabled b;
     Breakpoint.condition := SourceBreakpoint.condition raw;
     Breakpoint.hitCondition := SourceBreakpoint.hitCondition raw;
     Breakpoint.logMessage := SourceBreakpoint.logMessage raw;
     Breakpoint.location :=
       Some {| Location.uri := URI_parse (SourceBreakpoint.uri b);
               Location.range :=
                 {| Range.startLineNumber := SourceBreakpoint.line raw;
                    Range.startColumn := or_zero (SourceBreakpoint.column raw);
                    Range.endLineNumber := SourceBreakpoint.line raw;
                    Range.endColumn := or_zero (SourceBreakpoint.column raw) |} |} |}.

Definition toTheiaPluginApiBreakpoints (sourceBreakpoints : list SourceBreakpoint.t)
    : list (Breakpoint.t U) :=
  map toTheiaPluginApiBreakpoint sourceBreakpoints.

(** *** The event relays installed by the constructor; each returns the
    calls it sends to the extension side. *)

Definition onDidChangeMarkers (uri : string) : list (ExtCall U) :=
  let all := getBreakpoints host None in
  let affected := getBreakpoints host (Some uri) in
  [BreakpointsDidChange (toTheiaPluginApiBreakpoints all) [] []
                        (toTheiaPluginApiBreakpoints affected)].

Definition onDidCreateDebugSession (debugSession : DebugSession.t) : list (ExtCall U) :=
  [SessionDidCreate (DebugSession.id debugSession)].

Definition onDidDestroyDebugSession (debugSession : DebugSession.t) : list (ExtCall U) :=
  [SessionDidDestroy (DebugSession.id debugSession)].

Definition onDidChangeActiveDebugSession (current : option DebugSession.t)
    : list (ExtCall U) :=
  [SessionDidChange (DebugSession.id <$> current)].

Definition onDidReceiveDebugSessionCustomEvent (session : DebugSession.t)
    (event : string) (body : JSVal) : list (ExtCall U) :=
  [OnSessionCustomEvent (DebugSession.id session) event body].

(** *** Calls from the extension side *)

Definition customRequest (sessionId : string) (command : JSVal) (args : JSVal)
    : Result JSVal :=
  match getSession host sessionId with
  | Some session => DebugSession.sendCustomRequest session command args
  | None => Err ("Debug session '" ++ sessionId ++ "' not found")
  end.

(** [$addBreakpoints] and [$removeBreakpoints]: what is handed to the
    session manager *)
Definition addBreakpoints (breakpoints : list (Breakpoint.t U)) : list DebugBreakpoint.t :=
  toInternalBreakpoints breakpoints.

Definition removeBreakpoints (breakpoints : list (Breakpoint.t U)) : list DebugBreakpoint.t :=
  toInternalBreakpoints breakpoints.

End Host.

(** *** The contributor table *)

(** what the bridge asks of the host's contribution manager *)
Inductive ManagerCall : Type :=
| RegisterDebugPluginContributor (type : string) (contributor : DebugPluginContributor.t)
| UnregisterDebugPluginContributor (type : string).

(** [proxyContributors], and the calls made to the contribution manager,
    oldest first *)
Record Contributors : Type := {
  proxyContributors : gmap string DebugPluginContributor.t;
  managerCalls : list ManagerCall
}.

(** the [proxyContributor] object built by [$registerDebugConfigurationProvider] *)
Definition proxyContributor (contributorId : string) (description : DebuggerDescription.t)
    : DebugPluginContributor.t :=
  {| DebugPluginContributor.description := description;
     DebugPluginContributor.provideDebugConfigurations :=
       fun workspaceFolderUri => ProvideDebugConfigurations contributorId workspaceFolderUri;
     DebugPluginContributor.resolveDebugConfiguration :=
       fun config workspaceFolderUri =>
         ResolveDebugConfigurations contributorId config workspaceFolderUri;
     DebugPluginContributor.getSupportedLanguages := GetSupportedLanguages contributorId;
     DebugPluginContributor.getSchemaAttributes := GetSchemaAttributes contributorId;
     DebugPluginContributor.getConfigurationSnippets :=
       GetConfigurationSnippets contributorId;
     DebugPluginContributor.createDebugSession :=
       fun debugConfiguration => CreateDebugSession contributorId debugConfiguration;
     DebugPluginContributor.terminateDebugSession :=
       fun sessionId => TerminateDebugSession sessionId;
     DebugPluginContributor.getConnectionFactory := fun sessionId => sessionId |}.

(** [$registerDebugConfigurationProvider(contributorId, description)] *)
Definition registerDebugConfigurationProvider (contributorId : string)
    (description : DebuggerDescription.t) (h : Contributors) : Contributors :=
  let contributor := proxyContributor contributorId description in
  {| proxyContributors := <[contributorId := contributor]> (proxyContributors h);
     managerCalls :=
       (managerCalls h
        ++ [RegisterDebugPluginContributor (DebuggerDescription.type description)
              contributor])%list |}.

(** [$unregisterDebugConfigurationProvider(contributorId)] *)
Definition unregisterDebugConfigurationProvider (contributorId : string)
    (h : Contributors) : Contributors :=
  match proxyContributors h !! contributorId with
  | Some contributor =>
      {| proxyContributors := delete contributorId (proxyContributors h);
         managerCalls :=
           (managerCalls h
            ++ [UnregisterDebugPluginContributor
                  (DebuggerDescription.type
                     (DebugPluginContributor.description contributor))])%list |}
  | None => h
  end.

(** *** [$startDebugging] *)

Section Starting.
Context {U : Type}.
Variable URI_revive : U -> U.
Variable URI_toString : U -> string.
(** [configurationManager.all] *)
Variable all : list DebugSessionOptions.t.
(** [sessionManager.start(options)] *)
Variable start : DebugSessionOptions.t -> Result (option DebugSession.t).

(** the [for] loop over [configurationManager.all]: one step, and the loop *)
Definition pick_named (name : string) (configuration : option DebugConfiguration.t)
    (options : DebugSessionOptions.t) : option DebugConfiguration.t :=
  if String.eqb (DebugConfiguration.name (DebugSessionOptions.configuration options)) name
  then Some (DebugSessionOptions.configuration options)
  else configuration.

Definition find_named (name : string) : option DebugConfiguration.t :=
  fold_left (pick_named name) all None.

(** [$startDebugging(folder, nameOrConfiguration)] *)
Definition startDebugging (folder : option (WorkspaceFolder.t U))
    (nameOrConfiguration : string + DebugConfiguration.t) : Result bool :=
  let configuration :=
    match nameOrConfiguration with
    | inl name => find_named name
    | inr configuration => Some configuration
    end in
  match configuration with
  | None => Ok false
  | Some configuration =>
      match start {| DebugSessionOptions.configuration := configuration;
                     DebugSessionOptions.workspaceFolderUri :=
                       (fun folder => URI_toString (URI_revive (WorkspaceFolder.uri folder)))
                         <$> folder |} with
      | Ok session => Ok (bool_decide (is_Some session))
      | Err e => Err e
      end
  end.

End Starting.

End DebugMain.

(** The RPC proxy of the extension side, for the two registration calls. *)
Definition deliver_registration {U : Type} (call : MainCall U) (h : DebugMain.Contributors)
    : DebugMain.Contributors :=
  match call with
  | RegisterDebugConfigurationProvider contributorId description =>
      DebugMain.registerDebugConfigurationProvider contributorId description h
  | UnregisterDebugConfigurationProvider contributorId =>
      DebugMain.unregisterDebugConfigurationProvider contributorId h
  | _ => h
  end.

(** The RPC proxy of the extension side runs the method of the same name on
    the host; only [$customRequest] returns a value. *)
Definition deliver_to_main {U : Type} (host : DebugMain.Authorities) (call : MainCall U)
    : Result JSVal :=
  match call with
  | CustomRequest sessionId command args => DebugMain.customRequest host sessionId command args
  | _ => Ok JUndefined
  end.

(** ** The change a marker batch makes on one resource

    The breakpoints of a resource that a batch added or removed, from the
    store before and after the batch. *)

Module BatchDelta.

Definition on_resource (uri : string) (store : list SourceBreakpoint.t)
    : list SourceBreakpoint.t :=
  List.filter (fun b => String.eqb (SourceBreakpoint.uri b) uri) store.

Definition added (before after : list SourceBreakpoint.t) (uri : string)
    : list SourceBreakpoint.t :=
  List.filter (fun b => bool_decide (b ∉ before)) (on_resource uri after).

Definition removed (before after : list SourceBreakpoint.t) (uri : string)
    : list SourceBreakpoint.t :=
  List.filter (fun b => bool_decide (b ∉ after)) (on_resource uri before).

(** a [breakpointsDidChange] call carries the delta of a batch when every
    breakpoint the batch added to or removed from the resource occurs among
    its added, removed and changed arguments *)
Definition carried_by {U : Type} (URI_parse : string -> U)
    (before after : list SourceBreakpoint.t) (uri : string) (call : ExtCall U) : Prop :=
  match call with
  | BreakpointsDidChange _ added_arg removed_arg changed_arg =>
      ∀ b, b ∈ added before after uri ∨ b ∈ removed before after uri →
           DebugMain.toTheiaPluginApiBreakpoint URI_parse b
           ∈ (added_arg ++ removed_arg ++ changed_arg)%list
  | _ => False
  end.

End BatchDelta.

(** ** A concrete host *)

(** Identifiers that are already in canonical form, such as [file:///a]:
    on these the conversions of [vscode-uri] return what they are given. *)
Module CanonicalUri.
Definition t : Type := string.
Definition parse (s : string) : t := s.
Definition revive (u : t) : t := u.
Definition toString (u : t) : string := u.
End CanonicalUri.

Module MainExamples.

(** a breakpoint store as a list; [getBreakpoints(uri)] restricts it to one
    resource and [getBreakpoints()] returns all of it *)
Definition store_getBreakpoints (store : list SourceBreakpoint.t) (uri : option string)
    : list SourceBreakpoint.t :=
  match uri with
  | Some u => BatchDelta.on_resource u store
  | None => store
  end.

(** the session the host wraps around the extension-side session [uuid-i] *)
Definition liveSession : DebugSession.t :=
  {| DebugSession.id := "uuid-i";
     DebugSession.sendCustomRequest :=
       fun command args => Ok (JObj [("command", command); ("success", JBool true)]) |}.

Definition hostOf (store : list SourceBreakpoint.t) : DebugMain.Authorities :=
  {| DebugMain.getBreakpoints := store_getBreakpoints store;
     DebugMain.getSession :=
       fun sessionId =>
         ({[ "uuid-i" := liveSession ]} : gmap string DebugSession.t) !! sessionId;
     DebugMain.currentSession := Some liveSession |}.

(** [{uri:"file:///a", line:5, column:0, condition:"x"}] *)
Definition bp_a5 : SourceBreakpoint.t :=
  {| SourceBreakpoint.uri := "file:///a";
     SourceBreakpoint.enabled := true;
     SourceBreakpoint.raw :=
       {| SourceBreakpoint.line := 5;
          SourceBreakpoint.column := Some 0;
          SourceBreakpoint.condition := Some "x";
          SourceBreakpoint.hitCondition := None;
          SourceBreakpoint.logMessage := None |} |}.

Definition bp_b7 : SourceBreakpoint.t :=
  {| SourceBreakpoint.uri := "file:///b";
     SourceBreakpoint.enabled := false;
     SourceBreakpoint.raw :=
       {| SourceBreakpoint.line := 7;
          SourceBreakpoint.column := None;
          SourceBreakpoint.condition := None;
          SourceBreakpoint.hitCondition := None;
          SourceBreakpoint.logMessage := None |} |}.

(** a wire breakpoint without a location *)
Definition unlocated : Breakpoint.t CanonicalUri.t :=
  {| Breakpoint.enabled := true;
     Breakpoint.condition := Some "y";
     Breakpoint.hitCondition := None;
     Breakpoint.logMessage := None;
     Breakpoint.location := None |}.

End MainExamples.

(** ** What the resolver picks, stated apart from the method *)

Module ResolverSpec.
Import PluginDebugAdapterContribution.

(** a string field of the platform record, else of the unqualified metadata *)
Definition selected (process : Process) (pc : PluginPackageDebuggersContribution)
    (field : PlatformSpecificAdapterContribution -> option string) : option string :=
  match toPlatformInfo process pc with
  | Some info => if truthy_str (field info) then field info else field (base pc)
  | None => field (base pc)
  end.

(** an argument list of the platform record, else of the unqualified
    metadata, else empty *)
Definition selectedArgs (process : Process) (pc : PluginPackageDebuggersContribution)
    (field : PlatformSpecificAdapterContribution -> option (list string)) : list string :=
  match toPlatformInfo process pc with
  | Some info =>
      match field info with
      | Some l => l
      | None => default [] (field (base pc))
      end
  | None => default [] (field (base pc))
  end.

(** the runtime after a leading [./] has been resolved against the plugin
    path; [None] when there is no runtime to run *)
Definition resolvedRuntime (path_join : string -> string -> string) (process : Process)
    (pc : PluginPackageDebuggersContribution) (pluginPath : string) : option string :=
  match selected process pc runtime with
  | Some r =>
      if String.eqb r "" then None
      else
        let r' := if String.prefix "./" r then path_join pluginPath r else r in
        if String.eqb r' "" then None else Some r'
  | None => None
  end.

End ResolverSpec.

(** ** Concrete inputs *)

Module ResolverExamples.

Definition noPlatform : PlatformSpecificAdapterContribution :=
  {| program := None; args := None; runtime := None; runtimeArgs := None |}.

Definition onlyProgram (p : string) : PlatformSpecificAdapterContribution :=
  {| program := Some p; args := None; runtime := None; runtimeArgs := None |}.

Definition linuxProcess : Process :=
  {| isWindows := false; isOSX := false; env := ∅ |}.

(** a Windows process without the WOW64 marker *)
Definition windowsNative : Process :=
  {| isWindows := true; isOSX := false; env := ∅ |}.

(** a 32-bit process on 64-bit Windows: the marker is set *)
Definition windowsWow64 : Process :=
  {| isWindows := true; isOSX := false;
     env := {[ "PROCESSOR_ARCHITEW6432" := "AMD64" ]} |}.

(** [{win:{program:"a"}, osx:{program:"b"}, linux:{program:"c"}}] *)
Definition threePlatforms : PluginPackageDebuggersContribution :=
  {| type := "node"; label := None; languages := None; base := noPlatform;
     winx86 := None; win := Some (onlyProgram "a"); windows := None;
     osx := Some (onlyProgram "b"); linux := Some (onlyProgram "c");
     configurationSnippets := None; adapterExecutableCommand := None |}.

(** [{program:"out/adapter.js", args:["--server"], runtime:"./bin/node",
      runtimeArgs:["--nolazy"]}] *)
Definition withRuntime : PluginPackageDebuggersContribution :=
  {| type := "node"; label := None; languages := None;
     base := {| program := Some "out/adapter.js"; args := Some ["--server"];
                runtime := Some "./bin/node"; runtimeArgs := Some ["--nolazy"] |};
     winx86 := None; win := None; windows := None; osx := None; linux := None;
     configurationSnippets := None; adapterExecutableCommand := None |}.

(** [{winx86:{program:"x86"}, win:{program:"x64"}}] *)
Definition twoWindows : PluginPackageDebuggersContribution :=
  {| type := "node"; label := None; languages := None; base := noPlatform;
     winx86 := Some (onlyProgram "x86"); win := Some (onlyProgram "x64");
     windows := None; osx := None; linux := None;
     configurationSnippets := None; adapterExecutableCommand := None |}.

(** metadata with a one-entry table [{launch: {"type":"object"}}] *)
Definition withSnippets : PluginPackageDebuggersContribution :=
  {| type := "node"; label := None; languages := None; base := onlyProgram "a";
     winx86 := None; win := None; windows := None; osx := None; linux := None;
     configurationSnippets := Some [("launch", JObj [("type", JStr "object")])];
     adapterExecutableCommand := None |}.

(** the same metadata without a table *)
Definition withoutSnippets : PluginPackageDebuggersContribution :=
  {| type := "node"; label := None; languages := None; base := onlyProgram "a";
     winx86 := None; win := None; windows := None; osx := None; linux := None;
     configurationSnippets := None;
     adapterExecutableCommand := None |}.

End ResolverExamples.

(** ** A concrete extension host *)

Module ExtExamples.

(** [{type:"node", name:"Launch", request:"launch"}] *)
Definition launch : DebugConfiguration.t :=
  {| DebugConfiguration.type := "node";
     DebugConfiguration.name := "Launch";
     DebugConfiguration.request := "launch" |}.

(** the members inherited by every contribution of this host: languages and
    an executable [{command:"node", args:["/adapter.js"]}] *)
Definition inherited (debugType pluginPath : string) : DebugAdapterContribution.t :=
  {| DebugAdapterContribution.type := debugType;
     DebugAdapterContribution.languages := Some (Ok (Some ["javascript"]));
     DebugAdapterContribution.getSchemaAttributes := Some (Ok [JObj []]);
     DebugAdapterContribution.getConfigurationSnippets := None;
     DebugAdapterContribution.provideDebugConfigurations := None;
     DebugAdapterContribution.resolveDebugConfiguration := None;
     DebugAdapterContribution.provideDebugAdapterExecutable :=
       Some (fun _ => Ok (Some (ExecCommand "node" ["/adapter.js"]))) |}.

Fixpoint tally (n : nat) : string :=
  match n with
  | O => ""
  | S n' => "i" ++ tally n'
  end.

Definition world : DebugExt.Collaborators :=
  {| DebugExt.uuid_v4 := fun n => "uuid-" ++ tally n;
     DebugExt.VSCodeDebugAdapterContribution := inherited;
     DebugExt.spawn := fun _ _ => Ok 4711%nat;
     DebugExt.fork := fun _ _ => Ok 4712%nat;
     DebugExt.session_start := fun _ _ => Ok tt;
     DebugExt.session_stop := fun _ => Ok tt |}.

(** the same host, where starting a session throws *)
Definition world_start_throws : DebugExt.Collaborators :=
  {| DebugExt.uuid_v4 := fun n => "uuid-" ++ tally n;
     DebugExt.VSCodeDebugAdapterContribution := inherited;
     DebugExt.spawn := fun _ _ => Ok 4711%nat;
     DebugExt.fork := fun _ _ => Ok 4712%nat;
     DebugExt.session_start :=
       fun sessionId _ => Err ("The session has already been started, id: " ++ sessionId);
     DebugExt.session_stop := fun _ => Ok tt |}.

Definition provider : DebugConfigurationProvider.t :=
  {| DebugConfigurationProvider.provideDebugConfigurations := Some (Ok (Some [launch]));
     DebugConfigurationProvider.resolveDebugConfiguration := None |}.

Definition run {U A} (m : DebugExt.M (U:=U) A) (st : DebugExt.State U) : DebugExt.State U :=
  snd (m st).

(** a host with a working connection manager and one registered
    contribution, whose id is [uuid-] *)
Definition registered : DebugExt.State string :=
  run (DebugExt.registerDebugConfigurationProvider world "node" provider
         ResolverExamples.threePlatforms "/p")
      (run (DebugExt.inject (fun sessionId => Ok ("connection:" ++ sessionId))
                            (fun _ => Ok None))
           DebugExt.initial).

(** the same host, whose connection manager refuses every connection *)
Definition registered_offline : DebugExt.State string :=
  run (DebugExt.registerDebugConfigurationProvider world "node" provider
         ResolverExamples.threePlatforms "/p")
      (run (DebugExt.inject (fun _ => Err "connection refused") (fun _ => Ok None))
           DebugExt.initial).

(** the first host after its registration has been disposed *)
Definition unregistered : DebugExt.State string :=
  run (DebugExt.dispose_registration "uuid-") registered.

(** the first host after one session has been created; its id is [uuid-i] *)
Definition with_session : DebugExt.State string :=
  run (DebugExt.createDebugSession world "uuid-" launch) registered.

End ExtExamples.

(** ** Further concrete inputs for the extension side *)

Module SessionExamples.

(** package metadata that names a command providing the executable *)
Definition commandProvided : PluginPackageDebuggersContribution :=
  {| type := "mock"; label := Some "Mock"; languages := None;
     base := ResolverExamples.noPlatform;
     winx86 := None; win := None; windows := None; osx := None; linux := None;
     configurationSnippets := None;
     adapterExecutableCommand := Some "mock.adapterExecutable" |}.




(** a host whose command registry answers with a module descriptor *)
Definition with_commands : DebugExt.State string :=
  ExtExamples.run
    (DebugExt.inject (fun sessionId => Ok ("connection:" ++ sessionId))
                     (fun _ => Ok (Some (ExecModule "adapter.js" []))))
    DebugExt.initial.

(** the host of [ExtExamples.with_session] after a second session; its id is
    [uuid-ii] *)
Definition with_two_sessions : DebugExt.State string :=
  ExtExamples.run (DebugExt.createDebugSession ExtExamples.world "uuid-" ExtExamples.launch)
    ExtExamples.with_session.

End SessionExamples.

(** ** Further concrete inputs for the host side *)

Module HostExamples.

Definition nodeDescription : DebuggerDescription.t :=
  {| DebuggerDescription.type := "node"; DebuggerDescription.label := Some "Node" |}.

Definition noContributors : DebugMain.Contributors :=
  {| DebugMain.proxyContributors := ∅; DebugMain.managerCalls := [] |}.

(** [{type:"node", name:"Launch", request:"attach"}], a second configuration
    with the name of [ExtExamples.launch] *)
Definition launch_again : DebugConfiguration.t :=
  {| DebugConfiguration.type := "node";
     DebugConfiguration.name := "Launch";
     DebugConfiguration.request := "attach" |}.

Definition attach : DebugConfiguration.t :=
  {| DebugConfiguration.type := "node";
     DebugConfiguration.name := "Attach";
     DebugConfiguration.request := "attach" |}.

(** the configurations of two workspace folders; two of them are named
    [Launch] *)
Definition configurations : list DebugSessionOptions.t :=
  [ {| DebugSessionOptions.configuration := ExtExamples.launch;
       DebugSessionOptions.workspaceFolderUri := Some "file:///one" |};
    {| DebugSessionOptions.configuration := attach;
       DebugSessionOptions.workspaceFolderUri := Some "file:///one" |};
    {| DebugSessionOptions.configuration := launch_again;
       DebugSessionOptions.workspaceFolderUri := Some "file:///two" |} ].

End HostExamples.

(** * Properties of the executable resolver *)

Section ResolverFacts.
Import PluginDebugAdapterContribution ResolverSpec ResolverExamples.

Lemma or_str_and_then_selected process pc field :
  or_str (and_then (toPlatformInfo process pc) field) (field (base pc))
  = selected process pc field.
Proof.
  unfold selected, or_str, and_then.
  destruct (toPlatformInfo process pc) as [info|]; [reflexivity|].
  simpl. reflexivity.
Qed.

Lemma or_obj_and_then_selectedArgs process pc field :
  default [] (or_obj (or_obj (and_then (toPlatformInfo process pc) field)
                             (field (base pc))) (Some []))
  = selectedArgs process pc field.
Proof.
  unfold selectedArgs, or_obj, and_then.
  destruct (toPlatformInfo process pc) as [info|].
  - destruct (field info); [reflexivity|]. destruct (field (base pc)); reflexivity.
  - destruct (field (base pc)); reflexivity.
Qed.

Lemma truthy_str_Some s : truthy_str (Some s) = negb (String.eqb s "").
Proof. reflexivity. Qed.

(** C3 (as amended): the command is the resolved runtime when there is
    one, and otherwise the program joined to the plugin path; the argument
    list is [runtimeArgs ++ [joined program] ++ programArgs] with a runtime
    and [programArgs] without.  For the three-platform metadata on Linux the
    command is [path.join(pluginPath, "c")]. *)
Theorem provideDebugAdapterExecutable_resolves
    (path_join : string -> string -> string) (process : Process)
    (pc : PluginPackageDebuggersContribution) (pluginPath p : string)
    (Hprogram : selected process pc program = Some p)
    (Hnonempty : p ≠ "") :
  provideDebugAdapterExecutable path_join process pc pluginPath
  = Ok (match resolvedRuntime path_join process pc pluginPath with
        | Some r =>
            ExecCommand r (selectedArgs process pc runtimeArgs
                           ++ [path_join pluginPath p]
                           ++ selectedArgs process pc args)%list
        | None =>
            ExecCommand (path_join pluginPath p) (selectedArgs process pc args)
        end)
  ∧ (∀ root, provideDebugAdapterExecutable path_join linuxProcess threePlatforms root
             = Ok (ExecCommand (path_join root "c") [])).
Proof.
  split; [|intros root; reflexivity].
  unfold provideDebugAdapterExecutable, resolvedRuntime.
  rewrite !or_str_and_then_selected, !or_obj_and_then_selectedArgs, Hprogram.
  assert (Hp : String.eqb p "" = false) by (apply String.eqb_neq; exact Hnonempty).
  rewrite truthy_str_Some, Hp. simpl negb. cbv iota.
  destruct (selected process pc runtime) as [r|]; [|reflexivity].
  rewrite truthy_str_Some.
  destruct (String.eqb r "") eqn:Hr; simpl negb; simpl andb; cbv iota.
  - rewrite !truthy_str_Some, Hr. reflexivity.
  - simpl default.
    destruct (String.prefix "./" r); rewrite truthy_str_Some.
    + destruct (String.eqb (path_join pluginPath r) ""); reflexivity.
    + rewrite Hr. reflexivity.
Qed.

Lemma provideDebugAdapterExecutable_resolves_witness :
  provideDebugAdapterExecutable posix_join linuxProcess withRuntime "/p"
  = Ok (ExecCommand "/p/bin/node" ["--nolazy"; "/p/out/adapter.js"; "--server"]).
Proof.
  refine (proj1 (provideDebugAdapterExecutable_resolves posix_join linuxProcess
                   withRuntime "/p" "out/adapter.js" _ _)).
  - reflexivity.
  - discriminate.
Defined.

(** C3, the claim as stated fails: with plugin path [/p] the three-platform
    metadata resolves on Linux to the command [/p/c], not [c]. *)
Lemma provideDebugAdapterExecutable_command_not_bare_program :
  ¬ (∀ pluginPath, ∃ args,
       provideDebugAdapterExecutable posix_join linuxProcess threePlatforms pluginPath
       = Ok (ExecCommand "c" args)).
Proof.
  intros H. destruct (H "/p") as [args Hargs].
  vm_compute in Hargs. discriminate Hargs.
Qed.

Lemma or_obj_assoc {A} (a b c : option A) :
  or_obj (or_obj a b) c = or_obj a (or_obj b c).
Proof. destruct a, b; reflexivity. Qed.

(** C4 (as amended): on Windows the [winx86] record is preferred over the
    [win]/[windows] default exactly when the [PROCESSOR_ARCHITEW6432] marker
    is absent; when the marker is present the selection is [win], else
    [windows], and [winx86] is not consulted. *)
Theorem toPlatformInfo_windows (process : Process)
    (pc : PluginPackageDebuggersContribution)
    (Hwin : isWindows process = true) :
  toPlatformInfo process pc
  = if hasOwnProperty (env process) "PROCESSOR_ARCHITEW6432"
    then or_obj (win pc) (windows pc)
    else match winx86 pc with
         | Some x86 => Some x86
         | None => or_obj (win pc) (windows pc)
         end.
Proof.
  unfold toPlatformInfo. rewrite Hwin. simpl andb.
  destruct (hasOwnProperty (env process) "PROCESSOR_ARCHITEW6432"); simpl negb; cbv iota.
  - reflexivity.
  - rewrite or_obj_assoc. destruct (winx86 pc); reflexivity.
Qed.

Lemma toPlatformInfo_windows_witness :
  toPlatformInfo windowsWow64 twoWindows = Some (onlyProgram "x64")
  ∧ toPlatformInfo windowsNative twoWindows = Some (onlyProgram "x86").
Proof.
  split.
  - exact (toPlatformInfo_windows windowsWow64 twoWindows eq_refl).
  - exact (toPlatformInfo_windows windowsNative twoWindows eq_refl).
Defined.

(** C4, the claim as stated fails: it is not the presence of the marker
    that selects [winx86].  With the marker present the [win] record is
    selected although a [winx86] record exists. *)
Lemma toPlatformInfo_marker_present_not_winx86 :
  ¬ (∀ process pc x86,
       isWindows process = true →
       winx86 pc = Some x86 →
       (toPlatformInfo process pc = Some x86
        ↔ hasOwnProperty (env process) "PROCESSOR_ARCHITEW6432" = true)).
Proof.
  intros H.
  destruct (H windowsWow64 twoWindows (onlyProgram "x86") eq_refl eq_refl) as [_ Hback].
  specialize (Hback eq_refl). vm_compute in Hback. discriminate Hback.
Qed.

(** C2: [getSchemaAttributes] at a defined table returns the empty list
    instead of the table's entries, and at an undefined table throws. *)
Theorem getSchemaAttributes_inverted :
  getSchemaAttributes withSnippets = Ok []
  ∧ configurationSnippets withSnippets
    = Some [("launch", JObj [("type", JStr "object")])]
  ∧ getSchemaAttributes withoutSnippets
    = Err "TypeError: Cannot convert undefined or null to object"
  ∧ configurationSnippets withoutSnippets = None.
Proof. repeat split. Qed.

End ResolverFacts.

(** * Properties of the extension side *)

Create HintDb ext_ops.
#[global] Hint Unfold DebugExt.bind DebugExt.ret DebugExt.throw DebugExt.get
  DebugExt.modify DebugExt.await DebugExt.perform DebugExt.set_debugSessions
  DebugExt.set_contributions DebugExt.set_breakpoints DebugExt.uuid : ext_ops.

(** unfold the monad and compute *)
Ltac run_ext := autounfold with ext_ops; cbn.

Section ExtFacts.
Import ExtExamples.
Context {U : Type}.
Variable world : DebugExt.Collaborators.
Implicit Types (st : DebugExt.State U) (sessionId contributionId : string).

(** ** The contribution table *)

Lemma dispose_registration_absent st contributionId :
  DebugExt.debugAdapterContributions
    (snd (DebugExt.dispose_registration contributionId st)) !! contributionId = None.
Proof.
  unfold DebugExt.dispose_registration. run_ext. apply lookup_delete_eq.
Qed.

Lemma register_then_lookup st debugType provider packageContribution pluginPath :
  let r := DebugExt.registerDebugConfigurationProvider world debugType provider
             packageContribution pluginPath st in
  ∃ contributionId,
    fst r = Ok contributionId
    ∧ DebugExt.debugAdapterContributions (snd r) !! contributionId
      = Some (DebugExt.DebugPluginContribution world debugType provider pluginPath).
Proof.
  unfold DebugExt.registerDebugConfigurationProvider. run_ext.
  eexists. split; [reflexivity|]. apply lookup_insert_eq.
Qed.

Lemma queries_on_absent st contributionId
    (debugConfiguration : DebugConfiguration.t) (folder : option string) :
  DebugExt.debugAdapterContributions st !! contributionId = None →
  DebugExt.getSupportedLanguages contributionId st = (Ok [], st)
  ∧ DebugExt.getSchemaAttributes contributionId st = (Ok [], st)
  ∧ DebugExt.getConfigurationSnippets contributionId st = (Ok [], st)
  ∧ DebugExt.provideDebugConfigurations contributionId folder st = (Ok [], st)
  ∧ DebugExt.resolveDebugConfigurations contributionId debugConfiguration folder st
    = (Ok None, st).
Proof.
  intros Habsent.
  unfold DebugExt.getSupportedLanguages, DebugExt.getSchemaAttributes,
    DebugExt.getConfigurationSnippets, DebugExt.provideDebugConfigurations,
    DebugExt.resolveDebugConfigurations.
  run_ext. rewrite Habsent. repeat split.
Qed.

(** C6: for a contribution id that is not in the contribution table,
    because it was never registered or because its registration disposer
    has run, each of the five capability queries resolves (it does not
    reject) with the empty list, or with [undefined] for resolve, and
    leaves the state as it was. *)
Theorem capability_queries_tolerate_absent st contributionId
    (debugConfiguration : DebugConfiguration.t) (folder : option string)
    (Habsent : DebugExt.debugAdapterContributions st !! contributionId = None
               ∨ ∃ st0, st = snd (DebugExt.dispose_registration contributionId st0)) :
  DebugExt.getSupportedLanguages contributionId st = (Ok [], st)
  ∧ DebugExt.getSchemaAttributes contributionId st = (Ok [], st)
  ∧ DebugExt.getConfigurationSnippets contributionId st = (Ok [], st)
  ∧ DebugExt.provideDebugConfigurations contributionId folder st = (Ok [], st)
  ∧ DebugExt.resolveDebugConfigurations contributionId debugConfiguration folder st
    = (Ok None, st).
Proof.
  apply queries_on_absent.
  destruct Habsent as [Hnever | [st0 ->]].
  - exact Hnever.
  - apply dispose_registration_absent.
Qed.


(** ** Sessions *)

Lemma bind_run {A B} (m : DebugExt.M (U:=U) A) (k : A → DebugExt.M B) st :
  DebugExt.bind m k st
  = match m st with
    | (Ok a, st') => k a st'
    | (Err e, st') => (Err e, st')
    end.
Proof. reflexivity. Qed.

Lemma logged_app es1 es2 st :
  DebugExt.logged es2 (DebugExt.logged es1 st) = DebugExt.logged (es1 ++ es2) st.
Proof. unfold DebugExt.logged. cbn. rewrite <- app_assoc. reflexivity. Qed.

Lemma logged_nil st : DebugExt.logged [] st = st.
Proof. destruct st. unfold DebugExt.logged. cbn. rewrite app_nil_r. reflexivity. Qed.

Lemma getExecutable_logs packageContribution adapterContribution debugConfiguration st r st' :
  DebugExt.getExecutable packageContribution adapterContribution debugConfiguration st
  = (r, st') →
  ∃ es, st' = DebugExt.logged es st.
Proof.
  unfold DebugExt.getExecutable. run_ext.
  destruct (and_then packageContribution adapterExecutableCommand) as [command|].
  - destruct (DebugExt.commandRegistryExt st) as [executeCommand|]; cbn.
    + destruct (executeCommand command) as [[exe|]|e]; cbn; intros [= <- <-];
        exists [DebugExt.ExecuteCommand command]; reflexivity.
    + intros [= <- <-]. exists []. symmetry. apply logged_nil.
  - destruct (DebugAdapterContribution.provideDebugAdapterExecutable adapterContribution)
      as [provide|]; cbn.
    + destruct (provide debugConfiguration) as [[exe|]|e]; cbn; intros [= <- <-];
        exists []; symmetry; apply logged_nil.
    + intros [= <- <-]. exists []. symmetry. apply logged_nil.
Qed.

Lemma startDebugAdapter_logs executable st r st' :
  DebugExt.startDebugAdapter world executable st = (r, st') →
  ∃ es, st' = DebugExt.logged es st.
Proof.
  unfold DebugExt.startDebugAdapter. run_ext.
  destruct executable as [command args|modulePath args|]; cbn.
  - destruct (DebugExt.spawn world command args); cbn; intros [= <- <-];
      exists [DebugExt.Spawn command args]; reflexivity.
  - destruct (DebugExt.fork world modulePath args); cbn; intros [= <- <-];
      exists [DebugExt.Fork modulePath args]; reflexivity.
  - intros [= <- <-]. exists []. symmetry. apply logged_nil.
Qed.

(** Once the executable is resolved and the adapter process is started,
    the session is stored under the next identifier, and the outcome of the
    call is decided by the connection manager and by [start]. *)
Lemma createDebugSession_outcome st contributionId debugConfiguration
    adapterContribution executable communicationProvider st_e st_s :
  DebugExt.debugAdapterContributions st !! contributionId = Some adapterContribution →
  DebugExt.getExecutable (DebugExt.packageContributions st !! contributionId)
    adapterContribution debugConfiguration st = (Ok executable, st_e) →
  DebugExt.startDebugAdapter world executable st_e = (Ok communicationProvider, st_s) →
  let sessionId := DebugExt.uuid_v4 world (DebugExt.uuids st) in
  let r := DebugExt.createDebugSession world contributionId debugConfiguration st in
  DebugExt.debugSessions (snd r)
  = <[sessionId := DebugExt.minted sessionId debugConfiguration communicationProvider]>
      (DebugExt.debugSessions st)
  ∧ fst r
    = match DebugExt.connectionExt st with
      | None => Err "TypeError: Cannot read property 'ensureConnection' of undefined"
      | Some ensureConnection =>
          match ensureConnection sessionId with
          | Err e => Err e
          | Ok connection =>
              match DebugExt.session_start world sessionId connection with
              | Err e => Err e
              | Ok _ => Ok sessionId
              end
          end
      end.
Proof.
  intros Hc He Hs sessionId r. subst r sessionId.
  unfold DebugExt.createDebugSession.
  rewrite bind_run. cbn [DebugExt.get]. rewrite Hc.
  rewrite bind_run, He, bind_run, Hs.
  apply getExecutable_logs in He as [es1 ->].
  apply startDebugAdapter_logs in Hs as [es2 ->].
  rewrite logged_app. run_ext.
  destruct (DebugExt.connectionExt st) as [ensureConnection|]; cbn; [|done].
  destruct (ensureConnection _) as [connection|e]; cbn; [|done].
  destruct (DebugExt.session_start world _ connection) as [[]|e]; cbn; done.
Qed.

(** A successful [$createDebugSession] has stored the session under the id
    it returns. *)
Lemma createDebugSession_Ok st contributionId debugConfiguration sessionId st1 :
  DebugExt.createDebugSession world contributionId debugConfiguration st
  = (Ok sessionId, st1) →
  ∃ communicationProvider,
    DebugExt.debugSessions st1
    = <[sessionId := DebugExt.minted sessionId debugConfiguration communicationProvider]>
        (DebugExt.debugSessions st).
Proof.
  intros Hcreate.
  destruct (DebugExt.debugAdapterContributions st !! contributionId)
    as [adapterContribution|] eqn:Hc.
  2:{ revert Hcreate. unfold DebugExt.createDebugSession.
      rewrite bind_run. cbn [DebugExt.get]. rewrite Hc. discriminate. }
  destruct (DebugExt.getExecutable (DebugExt.packageContributions st !! contributionId)
              adapterContribution debugConfiguration st) as [[executable|e] st_e] eqn:He.
  2:{ revert Hcreate. unfold DebugExt.createDebugSession.
      rewrite bind_run. cbn [DebugExt.get]. rewrite Hc, bind_run, He. discriminate. }
  destruct (DebugExt.startDebugAdapter world executable st_e)
    as [[communicationProvider|e] st_s] eqn:Hs.
  2:{ revert Hcreate. unfold DebugExt.createDebugSession.
      rewrite bind_run. cbn [DebugExt.get]. rewrite Hc, bind_run, He, bind_run, Hs.
      discriminate. }
  destruct (createDebugSession_outcome st contributionId debugConfiguration _ _ _ _ _
              Hc He Hs) as [Hstored Hresult].
  rewrite Hcreate in Hstored, Hresult. cbn in Hstored, Hresult.
  exists communicationProvider.
  assert (sessionId = DebugExt.uuid_v4 world (DebugExt.uuids st)) as ->; [|exact Hstored].
  destruct (DebugExt.connectionExt st) as [ensureConnection|]; [|discriminate].
  destruct (ensureConnection _) as [connection|]; [|discriminate].
  destruct (DebugExt.session_start world _ connection); [|discriminate].
  congruence.
Qed.


Lemma terminateDebugSession_known st sessionId session :
  DebugExt.debugSessions st !! sessionId = Some session →
  ∃ mid,
    DebugExt.debugSessions mid = delete sessionId (DebugExt.debugSessions st)
    ∧ DebugExt.effects mid = DebugExt.effects st
    ∧ DebugExt.terminateDebugSession world sessionId st = DebugExt.stop world session mid
    ∧ DebugExt.debugSessions (snd (DebugExt.stop world session mid))
      = delete sessionId (DebugExt.debugSessions st)
    ∧ DebugExt.effects (snd (DebugExt.stop world session mid))
      = (DebugExt.effects st ++ [DebugExt.SessionStop (PluginDebugSession.id session)])%list.
Proof.
  intros Hknown.
  exists (snd (DebugExt.set_debugSessions (delete sessionId) st)).
  split; [reflexivity|]. split; [reflexivity|]. split.
  - unfold DebugExt.terminateDebugSession.
    rewrite bind_run. cbn [DebugExt.get]. rewrite Hknown. reflexivity.
  - unfold DebugExt.stop. run_ext.
    destruct (DebugExt.session_stop world (PluginDebugSession.id session)); done.
Qed.


(** C10: when [$createDebugSession] fails after the session has been
    stored (the connection manager is missing or rejects, or [start]
    throws), the call rejects and the registry still holds the session under
    the id that was minted for it and never returned. *)
Theorem createDebugSession_failure_keeps_session st contributionId debugConfiguration
    adapterContribution executable communicationProvider st_e st_s
    (Hcontribution :
       DebugExt.debugAdapterContributions st !! contributionId = Some adapterContribution)
    (Hexecutable :
       DebugExt.getExecutable (DebugExt.packageContributions st !! contributionId)
         adapterContribution debugConfiguration st = (Ok executable, st_e))
    (Hstarted :
       DebugExt.startDebugAdapter world executable st_e = (Ok communicationProvider, st_s))
    (Hfails :
       DebugExt.connectionExt st = None
       ∨ (∃ ensureConnection e,
            DebugExt.connectionExt st = Some ensureConnection
            ∧ ensureConnection (DebugExt.uuid_v4 world (DebugExt.uuids st)) = Err e)
       ∨ (∃ ensureConnection connection e,
            DebugExt.connectionExt st = Some ensureConnection
            ∧ ensureConnection (DebugExt.uuid_v4 world (DebugExt.uuids st)) = Ok connection
            ∧ DebugExt.session_start world (DebugExt.uuid_v4 world (DebugExt.uuids st))
                connection = Err e)) :
  let sessionId := DebugExt.uuid_v4 world (DebugExt.uuids st) in
  let r := DebugExt.createDebugSession world contributionId debugConfiguration st in
  (∃ e, fst r = Err e)
  ∧ DebugExt.debugSessions (snd r) !! sessionId
    = Some (DebugExt.minted sessionId debugConfiguration communicationProvider).
Proof.
  intros sessionId r.
  destruct (createDebugSession_outcome st contributionId debugConfiguration _ _ _ _ _
              Hcontribution Hexecutable Hstarted) as [Hstored Hresult].
  fold sessionId r in Hstored, Hresult. split.
  - rewrite Hresult.
    destruct Hfails as [-> | [(ens & e & -> & Hens) | (ens & c & e & -> & Hens & Hstart)]].
    + eauto.
    + fold sessionId in Hens. rewrite Hens. eauto.
    + fold sessionId in Hens, Hstart. rewrite Hens, Hstart. eauto.
  - rewrite Hstored. apply lookup_insert_eq.
Qed.

(** C8: [$sessionDidChange] never writes the [activeDebugSession] field.
    On a host whose registry holds the session [uuid-i], the notification
    for that id fires the change event with the session and leaves the field
    [undefined]. *)
Theorem sessionDidChange_leaves_activeDebugSession :
  (∀ st (sessionId : option string),
     DebugExt.activeDebugSession (snd (DebugExt.sessionDidChange sessionId st))
     = DebugExt.activeDebugSession st)
  ∧ (∃ session,
       DebugExt.debugSessions with_session !! "uuid-i" = Some session
       ∧ DebugExt.effects (snd (DebugExt.sessionDidChange (Some "uuid-i") with_session))
         = (DebugExt.effects with_session
            ++ [DebugExt.FireChangeActive (Some session)])%list
       ∧ DebugExt.activeDebugSession
           (snd (DebugExt.sessionDidChange (Some "uuid-i") with_session)) = None).
Proof.
  split.
  - intros st sessionId. unfold DebugExt.sessionDidChange. run_ext. reflexivity.
  - eexists. split; [vm_compute; reflexivity|].
    split; vm_compute; reflexivity.
Qed.

(** C1: the custom-request forwarder of a created session passes the
    command in the session-id slot of [$customRequest] and the arguments in
    the command slot.  With the session [uuid-i] live on the host, the
    forwarded call fails with "not found", whereas the call that names the
    session is answered by the adapter. *)
Theorem customRequest_forwarder_omits_session_id :
  ∃ session,
    DebugExt.debugSessions with_session !! "uuid-i" = Some session
    ∧ (∀ command args,
         PluginDebugSession.customRequest session command args
         = CustomRequest command args JUndefined)
    ∧ deliver_to_main (MainExamples.hostOf [])
        (PluginDebugSession.customRequest session "evaluate"
           (JObj [("expression", JStr "1+1")]))
      = Err "Debug session 'evaluate' not found"
    ∧ deliver_to_main (MainExamples.hostOf [])
        (CustomRequest (U:=string) "uuid-i" (JStr "evaluate")
           (JObj [("expression", JStr "1+1")]))
      = Ok (JObj [("command", JStr "evaluate"); ("success", JBool true)]).
Proof.
  eexists. split; [vm_compute; reflexivity|].
  split; [intros; reflexivity|].
  split; vm_compute; reflexivity.
Qed.

End ExtFacts.

Lemma capability_queries_tolerate_absent_witness :
  DebugExt.getSupportedLanguages "uuid-" ExtExamples.unregistered
  = (Ok [], ExtExamples.unregistered)
  ∧ DebugExt.getSchemaAttributes "uuid-" ExtExamples.unregistered
    = (Ok [], ExtExamples.unregistered)
  ∧ DebugExt.getConfigurationSnippets "uuid-" ExtExamples.unregistered
    = (Ok [], ExtExamples.unregistered)
  ∧ DebugExt.provideDebugConfigurations "uuid-" None ExtExamples.unregistered
    = (Ok [], ExtExamples.unregistered)
  ∧ DebugExt.resolveDebugConfigurations "uuid-" ExtExamples.launch None
      ExtExamples.unregistered
    = (Ok None, ExtExamples.unregistered).
Proof.
  apply (capability_queries_tolerate_absent ExtExamples.unregistered "uuid-"
           ExtExamples.launch None).
  right. exists ExtExamples.registered. reflexivity.
Defined.


Lemma createDebugSession_failure_keeps_session_witness :
  (∃ e, fst (DebugExt.createDebugSession ExtExamples.world "uuid-" ExtExamples.launch
               ExtExamples.registered_offline) = Err e)
  ∧ DebugExt.debugSessions
      (snd (DebugExt.createDebugSession ExtExamples.world "uuid-" ExtExamples.launch
              ExtExamples.registered_offline)) !! "uuid-i"
    = Some (DebugExt.minted "uuid-i" ExtExamples.launch
              {| CommunicationProvider.childProcess := 4711%nat |}).
Proof.
  eapply (createDebugSession_failure_keeps_session ExtExamples.world
            ExtExamples.registered_offline "uuid-" ExtExamples.launch).
  - vm_compute. reflexivity.
  - vm_compute. reflexivity.
  - vm_compute. reflexivity.
  - right. left. eexists _, "connection refused". split; vm_compute; reflexivity.
Defined.

Example createDebugSession_start_throws :
  fst (DebugExt.createDebugSession ExtExamples.world_start_throws "uuid-"
         ExtExamples.launch ExtExamples.registered)
  = Err "The session has already been started, id: uuid-i"
  ∧ is_Some (DebugExt.debugSessions
               (snd (DebugExt.createDebugSession ExtExamples.world_start_throws "uuid-"
                       ExtExamples.launch ExtExamples.registered)) !! "uuid-i").
Proof. split; vm_compute; eauto. Qed.

(** * Properties of the host side *)

Section HostFacts.
Context {U : Type}.
Variable URI_parse : string → U.
Variable URI_revive : U → U.
Variable URI_toString : U → string.
Variable host : DebugMain.Authorities.

#[local] Abbreviation toApi := (DebugMain.toTheiaPluginApiBreakpoints URI_parse).
#[local] Abbreviation toInternal :=
  (DebugMain.toInternalBreakpoints URI_revive URI_toString host).








(** C7 (as amended): a marker change on a resource sends exactly one
    [breakpointsDidChange] call; its first argument is the whole current
    breakpoint set, its added and removed arguments are empty, and its
    changed argument is every breakpoint now on the resource.  Delivered to
    the extension side, the call replaces the stored breakpoints by the
    whole set and fires one change event with those three arguments. *)
Theorem onDidChangeMarkers_sends_snapshot (uri : string) (st : DebugExt.State U) :
  let all := DebugMain.getBreakpoints host None in
  let affected := DebugMain.getBreakpoints host (Some uri) in
  DebugMain.onDidChangeMarkers URI_parse host uri
  = [BreakpointsDidChange (toApi all) [] [] (toApi affected)]
  ∧ length (toApi all) = length all
  ∧ length (toApi affected) = length affected
  ∧ fst (deliver_all_to_ext (DebugMain.onDidChangeMarkers URI_parse host uri) st) = Ok tt
  ∧ DebugExt.breakpoints
      (snd (deliver_all_to_ext (DebugMain.onDidChangeMarkers URI_parse host uri) st))
    = toApi all
  ∧ DebugExt.effects
      (snd (deliver_all_to_ext (DebugMain.onDidChangeMarkers URI_parse host uri) st))
    = (DebugExt.effects st
       ++ [DebugExt.FireChangeBreakpoints [] [] (toApi affected)])%list.
Proof.
  intros all affected. split; [reflexivity|].
  unfold DebugMain.toTheiaPluginApiBreakpoints. rewrite !length_map.
  repeat split.
Qed.

End HostFacts.


(** C7, the claim as stated fails: the batch that removes the only
    breakpoint of [file:///a] sends a call that carries that breakpoint in
    none of its added, removed and changed arguments. *)
Lemma onDidChangeMarkers_drops_removed_breakpoint :
  ¬ (∀ (before after : list SourceBreakpoint.t) (uri : string) call,
       call ∈ DebugMain.onDidChangeMarkers CanonicalUri.parse (MainExamples.hostOf after) uri →
       BatchDelta.carried_by CanonicalUri.parse before after uri call).
Proof.
  intros H.
  specialize (H [MainExamples.bp_a5; MainExamples.bp_b7] [MainExamples.bp_b7] "file:///a"
                _ (list_elem_of_here _ _)).
  cbn in H. specialize (H MainExamples.bp_a5).
  assert (Hin : MainExamples.bp_a5
                ∈ BatchDelta.removed [MainExamples.bp_a5; MainExamples.bp_b7]
                    [MainExamples.bp_b7] "file:///a")
    by (vm_compute; left).
  specialize (H (or_intror Hin)).
  vm_compute in H. inversion H.
Qed.

(** * Further properties of the extension side *)

Section ExtRegistryFacts.
Context {U : Type}.
Variable world : DebugExt.Collaborators.
Implicit Types (st : DebugExt.State U) (sessionId contributionId : string).

(** X1: Registration draws one identifier, stores the contribution and the
    package metadata under it, announces [{type, label}] to the host with one
    proxy call, and leaves every other entry, the sessions and the rest of
    the state alone. *)
Theorem registerDebugConfigurationProvider_stores st debugType provider
    packageContribution pluginPath :
  let contributionId := DebugExt.uuid_v4 world (DebugExt.uuids st) in
  let r := DebugExt.registerDebugConfigurationProvider world debugType provider
             packageContribution pluginPath st in
  fst r = Ok contributionId
  ∧ DebugExt.debugAdapterContributions (snd r)
    = <[contributionId := DebugExt.DebugPluginContribution world debugType provider pluginPath]>
        (DebugExt.debugAdapterContributions st)
  ∧ DebugExt.packageContributions (snd r)
    = <[contributionId := packageContribution]> (DebugExt.packageContributions st)
  ∧ (∀ other, other ≠ contributionId →
       DebugExt.debugAdapterContributions (snd r) !! other
       = DebugExt.debugAdapterContributions st !! other
       ∧ DebugExt.packageContributions (snd r) !! other
         = DebugExt.packageContributions st !! other)
  ∧ DebugExt.effects (snd r)
    = (DebugExt.effects st
       ++ [DebugExt.ProxyCall
             (RegisterDebugConfigurationProvider contributionId
                {| DebuggerDescription.type := debugType;
                   DebuggerDescription.label := label packageContribution |})])%list
  ∧ DebugExt.debugSessions (snd r) = DebugExt.debugSessions st
  ∧ DebugExt.uuids (snd r) = S (DebugExt.uuids st).
Proof.
  unfold DebugExt.registerDebugConfigurationProvider. run_ext.
  repeat split; try reflexivity.
  - rewrite lookup_insert_ne; [reflexivity | congruence].
  - rewrite lookup_insert_ne; [reflexivity | congruence].
Qed.

(** X2: Registering and then disposing a contribution whose identifier was not
    in use restores both contribution tables; what remains of the pair is the
    two proxy calls, register then unregister, for the same identifier. *)
Theorem register_then_dispose_restores st debugType provider packageContribution pluginPath
    (Hfresh_contribution :
       DebugExt.debugAdapterContributions st
         !! DebugExt.uuid_v4 world (DebugExt.uuids st) = None)
    (Hfresh_package :
       DebugExt.packageContributions st
         !! DebugExt.uuid_v4 world (DebugExt.uuids st) = None) :
  let contributionId := DebugExt.uuid_v4 world (DebugExt.uuids st) in
  let st1 := snd (DebugExt.registerDebugConfigurationProvider world debugType provider
                    packageContribution pluginPath st) in
  let st2 := snd (DebugExt.dispose_registration contributionId st1) in
  DebugExt.debugAdapterContributions st2 = DebugExt.debugAdapterContributions st
  ∧ DebugExt.packageContributions st2 = DebugExt.packageContributions st
  ∧ DebugExt.debugSessions st2 = DebugExt.debugSessions st
  ∧ DebugExt.effects st2
    = (DebugExt.effects st
       ++ [DebugExt.ProxyCall
             (RegisterDebugConfigurationProvider contributionId
                {| DebuggerDescription.type := debugType;
                   DebuggerDescription.label := label packageContribution |});
           DebugExt.ProxyCall (UnregisterDebugConfigurationProvider contributionId)])%list.
Proof.
  unfold DebugExt.registerDebugConfigurationProvider, DebugExt.dispose_registration.
  run_ext. rewrite !delete_insert_eq, !delete_id by assumption.
  rewrite <- app_assoc. repeat split.
Qed.

(** X3: The disposer touches only its own identifier: every other contribution
    stays registered, and the sessions stay as they are. *)
Theorem dispose_registration_frame st contributionId :
  let st' := snd (DebugExt.dispose_registration contributionId st) in
  fst (DebugExt.dispose_registration contributionId st) = Ok tt
  ∧ DebugExt.debugAdapterContributions st' !! contributionId = None
  ∧ DebugExt.packageContributions st' !! contributionId = None
  ∧ (∀ other, other ≠ contributionId →
       DebugExt.debugAdapterContributions st' !! other
       = DebugExt.debugAdapterContributions st !! other
       ∧ DebugExt.packageContributions st' !! other
         = DebugExt.packageContributions st !! other)
  ∧ DebugExt.debugSessions st' = DebugExt.debugSessions st
  ∧ DebugExt.effects st'
    = (DebugExt.effects st
       ++ [DebugExt.ProxyCall (UnregisterDebugConfigurationProvider contributionId)])%list.
Proof.
  unfold DebugExt.dispose_registration. run_ext.
  repeat split; try reflexivity; try apply lookup_delete_eq.
  - rewrite lookup_delete_ne; [reflexivity | congruence].
  - rewrite lookup_delete_ne; [reflexivity | congruence].
Qed.

(** X4: The five capability queries are read-only: whatever the contribution
    table holds and however the provider settles, the state after a query is
    the state before it. *)
Theorem capability_queries_read_only st contributionId
    (debugConfiguration : DebugConfiguration.t) (folder : option string) :
  snd (DebugExt.getSupportedLanguages contributionId st) = st
  ∧ snd (DebugExt.getSchemaAttributes contributionId st) = st
  ∧ snd (DebugExt.getConfigurationSnippets contributionId st) = st
  ∧ snd (DebugExt.provideDebugConfigurations contributionId folder st) = st
  ∧ snd (DebugExt.resolveDebugConfigurations contributionId debugConfiguration folder st)
    = st.
Proof.
  unfold DebugExt.getSupportedLanguages, DebugExt.getSchemaAttributes,
    DebugExt.getConfigurationSnippets, DebugExt.provideDebugConfigurations,
    DebugExt.resolveDebugConfigurations.
  run_ext.
  destruct (DebugExt.debugAdapterContributions st !! contributionId) as [ac|];
    [|repeat split].
  destruct ac as [ty langs schemas snippets provide resolve exe]; cbn.
  repeat split.
  - destruct langs as [[[l|]|e]|]; reflexivity.
  - destruct schemas as [[l|e]|]; reflexivity.
  - destruct snippets as [[l|e]|]; reflexivity.
  - destruct provide as [provide|]; [|reflexivity].
    destruct (provide None) as [[l|]|e]; reflexivity.
  - destruct resolve as [resolve|]; [|reflexivity].
    destruct (resolve debugConfiguration folder) as [l|e]; reflexivity.
Qed.


(** X6: A query to resolve a configuration that reaches a registered provider
    hands the configuration to the provider's resolver and returns its
    outcome; without a resolver it resolves with [undefined]. *)
Theorem resolveDebugConfigurations_after_register st debugType provider
    packageContribution pluginPath (debugConfiguration : DebugConfiguration.t)
    (folder : option string) :
  let contributionId := DebugExt.uuid_v4 world (DebugExt.uuids st) in
  let st1 := snd (DebugExt.registerDebugConfigurationProvider world debugType provider
                    packageContribution pluginPath st) in
  fst (DebugExt.resolveDebugConfigurations contributionId debugConfiguration folder st1)
  = match DebugConfigurationProvider.resolveDebugConfiguration provider with
    | Some resolve => resolve debugConfiguration
    | None => Ok None
    end.
Proof.
  unfold DebugExt.registerDebugConfigurationProvider, DebugExt.resolveDebugConfigurations.
  run_ext. rewrite lookup_insert_eq. cbn.
  destruct (DebugConfigurationProvider.resolveDebugConfiguration provider)
    as [resolve|]; [|reflexivity].
  destruct (resolve debugConfiguration); reflexivity.
Qed.

End ExtRegistryFacts.

Lemma register_then_dispose_restores_witness :
  DebugExt.debugAdapterContributions
    (snd (DebugExt.dispose_registration "uuid-"
            (snd (DebugExt.registerDebugConfigurationProvider ExtExamples.world "node"
                    ExtExamples.provider ResolverExamples.threePlatforms "/p"
                    (DebugExt.initial (U:=string))))))
  = ∅.
Proof.
  refine (proj1 (register_then_dispose_restores ExtExamples.world DebugExt.initial
                   "node" ExtExamples.provider ResolverExamples.threePlatforms "/p" _ _));
    reflexivity.
Defined.

Section ExtSessionFacts.
Context {U : Type}.
Variable world : DebugExt.Collaborators.
Implicit Types (st : DebugExt.State U) (sessionId contributionId : string).

(** ** Notifications *)

(** X7: The relays for session creation, session destruction and custom events
    fire nothing for a session id the registry does not hold: the state is
    unchanged.  For a registered id each fires exactly one event, carrying the
    registered session, and changes nothing but the log. *)
Theorem session_notifications_need_a_registered_session st sessionId
    (event : string) (body : JSVal) :
  match DebugExt.debugSessions st !! sessionId with
  | None =>
      DebugExt.sessionDidCreate sessionId st = (Ok tt, st)
      ∧ DebugExt.sessionDidDestroy sessionId st = (Ok tt, st)
      ∧ DebugExt.onSessionCustomEvent sessionId event body st = (Ok tt, st)
  | Some session =>
      DebugExt.sessionDidCreate sessionId st
      = (Ok tt, DebugExt.logged [DebugExt.FireStart session] st)
      ∧ DebugExt.sessionDidDestroy sessionId st
        = (Ok tt, DebugExt.logged [DebugExt.FireTerminate session] st)
      ∧ DebugExt.onSessionCustomEvent sessionId event body st
        = (Ok tt, DebugExt.logged [DebugExt.FireCustomEvent event body session] st)
  end.
Proof.
  unfold DebugExt.sessionDidCreate, DebugExt.sessionDidDestroy,
    DebugExt.onSessionCustomEvent.
  run_ext.
  destruct (DebugExt.debugSessions st !! sessionId); repeat split.
Qed.

(** [$sessionDidDestroy] does not unregister: after the host reports a
    session destroyed the registry still holds it, so a later notification or
    terminate for the same id still finds it. *)
Theorem sessionDidDestroy_keeps_session st sessionId :
  DebugExt.debugSessions (snd (DebugExt.sessionDidDestroy sessionId st))
  = DebugExt.debugSessions st.
Proof.
  unfold DebugExt.sessionDidDestroy. run_ext.
  destruct (DebugExt.debugSessions st !! sessionId); reflexivity.
Qed.

(** Unlike the other session relays, [$sessionDidChange] fires on every
    notification, also for an unknown or missing id: the event carries the
    registered session when the id is a non-empty registered id, and
    [undefined] otherwise. *)
Theorem sessionDidChange_always_fires st (sessionId : option string) :
  DebugExt.sessionDidChange sessionId st
  = (Ok tt,
     DebugExt.logged
       [DebugExt.FireChangeActive
          match sessionId with
          | Some id => if String.eqb id "" then None else DebugExt.debugSessions st !! id
          | None => None
          end] st).
Proof.
  unfold DebugExt.sessionDidChange. run_ext.
  destruct sessionId as [id|]; [|reflexivity].
  cbn. destruct (String.eqb id ""); reflexivity.
Qed.

(** ** Creating sessions *)

(** X8: [$createDebugSession] for a contribution id that is not registered
    rejects with a message naming the id and the configuration type, before
    anything is resolved or started: the state is unchanged. *)
Theorem createDebugSession_unknown_contribution st contributionId
    (debugConfiguration : DebugConfiguration.t)
    (Hunknown : DebugExt.debugAdapterContributions st !! contributionId = None) :
  DebugExt.createDebugSession world contributionId debugConfiguration st
  = (Err ("Debug adapter contribution '" ++ contributionId
          ++ "' not found, configuration type: "
          ++ DebugConfiguration.type debugConfiguration), st).
Proof.
  unfold DebugExt.createDebugSession.
  rewrite bind_run. cbn [DebugExt.get]. rewrite Hunknown. reflexivity.
Qed.

(** What [$createDebugSession] can change.  It never changes the contribution
    tables or the injected collaborators, and it only appends to the log.
    Either it stores nothing and draws no identifier (then it has rejected),
    or it stores exactly one session, under the next identifier, built from
    the requested configuration. *)
Lemma createDebugSession_changes st contributionId
    (debugConfiguration : DebugConfiguration.t) :
  let r := DebugExt.createDebugSession world contributionId debugConfiguration st in
  let sessionId := DebugExt.uuid_v4 world (DebugExt.uuids st) in
  DebugExt.debugAdapterContributions (snd r) = DebugExt.debugAdapterContributions st
  ∧ DebugExt.packageContributions (snd r) = DebugExt.packageContributions st
  ∧ DebugExt.connectionExt (snd r) = DebugExt.connectionExt st
  ∧ DebugExt.commandRegistryExt (snd r) = DebugExt.commandRegistryExt st
  ∧ (∃ es, DebugExt.effects (snd r) = (DebugExt.effects st ++ es)%list)
  ∧ ((DebugExt.debugSessions (snd r) = DebugExt.debugSessions st
      ∧ DebugExt.uuids (snd r) = DebugExt.uuids st
      ∧ ∃ e, fst r = Err e)
     ∨ (∃ communicationProvider,
          DebugExt.debugSessions (snd r)
          = <[sessionId := DebugExt.minted sessionId debugConfiguration communicationProvider]>
              (DebugExt.debugSessions st)
          ∧ DebugExt.uuids (snd r) = S (DebugExt.uuids st))).
Proof.
  intros r sessionId. subst r sessionId.
  unfold DebugExt.createDebugSession.
  rewrite bind_run. cbn [DebugExt.get].
  destruct (DebugExt.debugAdapterContributions st !! contributionId)
    as [adapterContribution|].
  2:{ cbn. repeat split; try reflexivity.
      - exists []. rewrite app_nil_r. reflexivity.
      - left. eauto. }
  rewrite bind_run.
  destruct (DebugExt.getExecutable (DebugExt.packageContributions st !! contributionId)
              adapterContribution debugConfiguration st) as [[executable|e] st_e] eqn:He;
    apply getExecutable_logs in He as [es1 ->].
  2:{ cbn. repeat split; try reflexivity; [eexists; reflexivity|]. left. eauto. }
  rewrite bind_run.
  destruct (DebugExt.startDebugAdapter world executable (DebugExt.logged es1 st))
    as [[communicationProvider|e] st_s] eqn:Hs;
    apply startDebugAdapter_logs in Hs as [es2 ->]; rewrite logged_app.
  2:{ cbn. repeat split; try reflexivity; [eexists; reflexivity|]. left. eauto. }
  run_ext.
  destruct (DebugExt.connectionExt st) as [ensureConnection|]; cbn.
  2:{ repeat split; try reflexivity; [eexists; reflexivity|]. right. eauto. }
  destruct (ensureConnection _) as [connection|e]; cbn.
  2:{ repeat split; try reflexivity;
        [rewrite <- app_assoc; eexists; reflexivity|]. right. eauto. }
  destruct (DebugExt.session_start world _ connection) as [[]|e]; cbn;
    (repeat split; try reflexivity;
       [rewrite <- !app_assoc; eexists; reflexivity|]; right; eauto).
Qed.

Lemma createDebugSession_Ok_next st contributionId
    (debugConfiguration : DebugConfiguration.t) sessionId st1 :
  DebugExt.createDebugSession world contributionId debugConfiguration st
  = (Ok sessionId, st1) →
  sessionId = DebugExt.uuid_v4 world (DebugExt.uuids st).
Proof.
  intros Hcreate.
  destruct (DebugExt.debugAdapterContributions st !! contributionId)
    as [adapterContribution|] eqn:Hc.
  2:{ revert Hcreate. unfold DebugExt.createDebugSession.
      rewrite bind_run. cbn [DebugExt.get]. rewrite Hc. discriminate. }
  destruct (DebugExt.getExecutable (DebugExt.packageContributions st !! contributionId)
              adapterContribution debugConfiguration st) as [[executable|e] st_e] eqn:He.
  2:{ revert Hcreate. unfold DebugExt.createDebugSession.
      rewrite bind_run. cbn [DebugExt.get]. rewrite Hc, bind_run, He. discriminate. }
  destruct (DebugExt.startDebugAdapter world executable st_e)
    as [[communicationProvider|e] st_s] eqn:Hs.
  2:{ revert Hcreate. unfold DebugExt.createDebugSession.
      rewrite bind_run. cbn [DebugExt.get]. rewrite Hc, bind_run, He, bind_run, Hs.
      discriminate. }
  destruct (createDebugSession_outcome world st contributionId debugConfiguration _ _ _ _ _
              Hc He Hs) as [_ Hresult].
  rewrite Hcreate in Hresult. cbn in Hresult.
  destruct (DebugExt.connectionExt st) as [ensureConnection|]; [|discriminate].
  destruct (ensureConnection _) as [connection|]; [|discriminate].
  destruct (DebugExt.session_start world _ connection); [|discriminate].
  congruence.
Qed.

(** X9: [$createDebugSession] never disturbs what is already registered: the
    contribution tables are unchanged, every session other than the one under
    the next identifier is unchanged, and the log only grows. *)
Theorem createDebugSession_frame st contributionId
    (debugConfiguration : DebugConfiguration.t) :
  let r := DebugExt.createDebugSession world contributionId debugConfiguration st in
  DebugExt.debugAdapterContributions (snd r) = DebugExt.debugAdapterContributions st
  ∧ DebugExt.packageContributions (snd r) = DebugExt.packageContributions st
  ∧ (∀ other, other ≠ DebugExt.uuid_v4 world (DebugExt.uuids st) →
       DebugExt.debugSessions (snd r) !! other = DebugExt.debugSessions st !! other)
  ∧ (∃ es, DebugExt.effects (snd r) = (DebugExt.effects st ++ es)%list).
Proof.
  intros r.
  destruct (createDebugSession_changes st contributionId debugConfiguration)
    as (Hc & Hp & _ & _ & Hlog & Hsessions).
  fold r in Hc, Hp, Hlog, Hsessions.
  split; [exact Hc|]. split; [exact Hp|]. split; [|exact Hlog].
  intros other Hother.
  destruct Hsessions as [(-> & _) | (cp & -> & _)]; [reflexivity|].
  rewrite lookup_insert_ne; [reflexivity | congruence].
Qed.

(** X10: A call that stores nothing has rejected, and a call that resolves has
    stored: [$createDebugSession] resolves only with the next identifier, and
    then the registry maps that identifier to a session whose id is the
    returned id and whose configuration, type and name are those requested;
    exactly one identifier has been drawn. *)
Theorem createDebugSession_resolves_with_stored_id st contributionId
    (debugConfiguration : DebugConfiguration.t) sessionId st1
    (Hcreate : DebugExt.createDebugSession world contributionId debugConfiguration st
               = (Ok sessionId, st1)) :
  sessionId = DebugExt.uuid_v4 world (DebugExt.uuids st)
  ∧ DebugExt.uuids st1 = S (DebugExt.uuids st)
  ∧ ∃ session,
      DebugExt.debugSessions st1 !! sessionId = Some session
      ∧ PluginDebugSession.id session = sessionId
      ∧ PluginDebugSession.configuration session = debugConfiguration
      ∧ PluginDebugSession.type session = DebugConfiguration.type debugConfiguration
      ∧ PluginDebugSession.name session = DebugConfiguration.name debugConfiguration.
Proof.
  destruct (createDebugSession_changes st contributionId debugConfiguration)
    as (_ & _ & _ & _ & _ & Hsessions).
  rewrite Hcreate in Hsessions. cbn in Hsessions.
  destruct Hsessions as [(_ & _ & e & He) | (cp & Hstored & Huuids)]; [discriminate|].
  destruct (createDebugSession_Ok world st _ _ _ _ Hcreate) as [cp' Hstored'].
  pose proof (createDebugSession_Ok_next st _ _ _ _ Hcreate) as Hid.
  split; [exact Hid|]. split; [exact Huuids|].
  exists (DebugExt.minted sessionId debugConfiguration cp').
  rewrite Hstored', lookup_insert_eq. repeat split.
Qed.

(** X11: Two sessions created one after the other get different ids, and both are
    registered afterwards, whenever the identifier source does not repeat
    itself between the two draws. *)
Theorem createDebugSession_twice st contributionId contributionId'
    (debugConfiguration debugConfiguration' : DebugConfiguration.t)
    sessionId sessionId' st1 st2
    (Hfirst : DebugExt.createDebugSession world contributionId debugConfiguration st
              = (Ok sessionId, st1))
    (Hsecond : DebugExt.createDebugSession world contributionId' debugConfiguration' st1
               = (Ok sessionId', st2))
    (Hdistinct : DebugExt.uuid_v4 world (DebugExt.uuids st)
                 ≠ DebugExt.uuid_v4 world (S (DebugExt.uuids st))) :
  sessionId ≠ sessionId'
  ∧ is_Some (DebugExt.debugSessions st2 !! sessionId)
  ∧ is_Some (DebugExt.debugSessions st2 !! sessionId').
Proof.
  pose proof (createDebugSession_Ok_next _ _ _ _ _ Hfirst) as Hid.
  pose proof (createDebugSession_Ok_next _ _ _ _ _ Hsecond) as Hid'.
  destruct (createDebugSession_changes st contributionId debugConfiguration)
    as (_ & _ & _ & _ & _ & Hs1).
  rewrite Hfirst in Hs1. cbn in Hs1.
  destruct Hs1 as [(_ & _ & e & He) | (cp & Hstored & Huuids)]; [discriminate|].
  destruct (createDebugSession_Ok world _ _ _ _ _ Hsecond) as [cp' Hstored'].
  rewrite Huuids in Hid'. subst sessionId sessionId'.
  split; [exact Hdistinct|]. rewrite Hstored', Hstored. split.
  - rewrite lookup_insert_ne by congruence. rewrite lookup_insert_eq. eauto.
  - rewrite lookup_insert_eq. eauto.
Qed.

(** ** Terminating sessions *)

(** X12: [$terminateDebugSession] touches one registry entry only: the
    contribution tables and every other session are unchanged.  It settles
    as the session's [stop] settles, so a rejection of [stop] is passed on, and
    the session is unregistered all the same. *)
Theorem terminateDebugSession_frame st sessionId :
  let r := DebugExt.terminateDebugSession world sessionId st in
  DebugExt.debugAdapterContributions (snd r) = DebugExt.debugAdapterContributions st
  ∧ DebugExt.packageContributions (snd r) = DebugExt.packageContributions st
  ∧ DebugExt.uuids (snd r) = DebugExt.uuids st
  ∧ DebugExt.debugSessions (snd r) = delete sessionId (DebugExt.debugSessions st)
  ∧ (∀ other, other ≠ sessionId →
       DebugExt.debugSessions (snd r) !! other = DebugExt.debugSessions st !! other)
  ∧ fst r
    = match DebugExt.debugSessions st !! sessionId with
      | Some session => DebugExt.session_stop world (PluginDebugSession.id session)
      | None => Ok tt
      end.
Proof.
  intros r. subst r. unfold DebugExt.terminateDebugSession, DebugExt.stop. run_ext.
  destruct (DebugExt.debugSessions st !! sessionId) as [session|] eqn:Hs; cbn.
  - destruct (DebugExt.session_stop world (PluginDebugSession.id session)) as [[]|e];
      cbn; repeat split; intros; rewrite ?lookup_delete_ne by congruence; reflexivity.
  - repeat split.
    + symmetry. apply delete_id. exact Hs.
Qed.

(** ** Obtaining the executable *)

(** X13: When the package metadata names an executable command, that command
    alone decides: the contribution's own [provideDebugAdapterExecutable] is
    not consulted, not even when the command yields nothing, in which case the
    call fails. *)
Theorem getExecutable_command_takes_precedence st
    (packageContribution : PluginPackageDebuggersContribution) command
    (adapterContribution : DebugAdapterContribution.t)
    (debugConfiguration : DebugConfiguration.t)
    (Hcommand : adapterExecutableCommand packageContribution = Some command) :
  fst (DebugExt.getExecutable (Some packageContribution) adapterContribution
         debugConfiguration st)
  = match DebugExt.commandRegistryExt st with
    | Some executeCommand =>
        match executeCommand command with
        | Ok (Some executable) => Ok executable
        | Ok None => Err "It is not possible to provide DebugAdapterExecutable"
        | Err e => Err e
        end
    | None => Err "TypeError: Cannot read property 'executeCommand' of undefined"
    end.
Proof.
  unfold DebugExt.getExecutable. cbn [and_then]. rewrite Hcommand. run_ext.
  destruct (DebugExt.commandRegistryExt st) as [executeCommand|]; [|reflexivity].
  cbn. destruct (executeCommand command) as [[executable|]|e]; reflexivity.
Qed.

(** X14: Without an executable command in the metadata (or without metadata), the
    contribution's own resolution decides, and the command registry is not
    asked: nothing is logged. *)
Theorem getExecutable_falls_back_to_contribution st
    (packageContribution : option PluginPackageDebuggersContribution)
    (adapterContribution : DebugAdapterContribution.t)
    (debugConfiguration : DebugConfiguration.t)
    (Hnocommand : and_then packageContribution adapterExecutableCommand = None) :
  DebugExt.getExecutable packageContribution adapterContribution debugConfiguration st
  = (match DebugAdapterContribution.provideDebugAdapterExecutable adapterContribution with
     | Some provide =>
         match provide debugConfiguration with
         | Ok (Some executable) => Ok executable
         | Ok None => Err "It is not possible to provide DebugAdapterExecutable"
         | Err e => Err e
         end
     | None => Err "It is not possible to provide DebugAdapterExecutable"
     end, st).
Proof.
  unfold DebugExt.getExecutable. rewrite Hnocommand. run_ext.
  destruct (DebugAdapterContribution.provideDebugAdapterExecutable adapterContribution)
    as [provide|]; [|reflexivity].
  cbn. destruct (provide debugConfiguration) as [[executable|]|e]; reflexivity.
Qed.

(** ** Starting the adapter *)


End ExtSessionFacts.

Lemma createDebugSession_unknown_contribution_witness :
  DebugExt.createDebugSession ExtExamples.world "uuid-" ExtExamples.launch
    ExtExamples.unregistered
  = (Err "Debug adapter contribution 'uuid-' not found, configuration type: node",
     ExtExamples.unregistered).
Proof.
  apply (createDebugSession_unknown_contribution ExtExamples.world
           ExtExamples.unregistered "uuid-" ExtExamples.launch).
  reflexivity.
Defined.

Lemma createDebugSession_resolves_with_stored_id_witness :
  "uuid-i" = DebugExt.uuid_v4 ExtExamples.world (DebugExt.uuids ExtExamples.registered)
  ∧ DebugExt.uuids ExtExamples.with_session = S (DebugExt.uuids ExtExamples.registered)
  ∧ ∃ session,
      DebugExt.debugSessions ExtExamples.with_session !! "uuid-i" = Some session
      ∧ PluginDebugSession.id session = "uuid-i"
      ∧ PluginDebugSession.configuration session = ExtExamples.launch
      ∧ PluginDebugSession.type session = "node"
      ∧ PluginDebugSession.name session = "Launch".
Proof.
  apply (createDebugSession_resolves_with_stored_id ExtExamples.world
           ExtExamples.registered "uuid-" ExtExamples.launch "uuid-i"
           ExtExamples.with_session).
  vm_compute. reflexivity.
Defined.

Lemma createDebugSession_twice_witness :
  "uuid-i" ≠ "uuid-ii"
  ∧ is_Some (DebugExt.debugSessions SessionExamples.with_two_sessions !! "uuid-i")
  ∧ is_Some (DebugExt.debugSessions SessionExamples.with_two_sessions !! "uuid-ii").
Proof.
  apply (createDebugSession_twice ExtExamples.world ExtExamples.registered
           "uuid-" "uuid-" ExtExamples.launch ExtExamples.launch
           "uuid-i" "uuid-ii" ExtExamples.with_session SessionExamples.with_two_sessions).
  - vm_compute. reflexivity.
  - vm_compute. reflexivity.
  - vm_compute. discriminate.
Defined.

Lemma getExecutable_command_takes_precedence_witness :
  fst (DebugExt.getExecutable (Some SessionExamples.commandProvided)
         (ExtExamples.inherited "mock" "/p") ExtExamples.launch
         SessionExamples.with_commands)
  = Ok (ExecModule "adapter.js" []).
Proof.
  apply (getExecutable_command_takes_precedence SessionExamples.with_commands
           SessionExamples.commandProvided "mock.adapterExecutable"
           (ExtExamples.inherited "mock" "/p") ExtExamples.launch).
  reflexivity.
Defined.

Lemma getExecutable_falls_back_to_contribution_witness :
  DebugExt.getExecutable (Some ResolverExamples.threePlatforms)
    (ExtExamples.inherited "node" "/p") ExtExamples.launch ExtExamples.registered
  = (Ok (ExecCommand "node" ["/adapter.js"]), ExtExamples.registered).
Proof.
  apply (getExecutable_falls_back_to_contribution ExtExamples.registered
           (Some ResolverExamples.threePlatforms) (ExtExamples.inherited "node" "/p")
           ExtExamples.launch).
  reflexivity.
Defined.


(** * Further properties of the host side *)

Section HostTranslationFacts.
Context {U : Type}.
Variable URI_parse : string → U.
Variable URI_revive : U → U.
Variable URI_toString : U → string.
Variable host : DebugMain.Authorities.

#[local] Abbreviation toWire := (DebugMain.toTheiaPluginApiBreakpoints URI_parse).
#[local] Abbreviation toHost :=
  (DebugMain.toInternalBreakpoints URI_revive URI_toString host).

Lemma toInternalBreakpoints_step w ws :
  toHost (w :: ws)
  = match Breakpoint.location w with
    | Some location =>
        DebugMain.toInternalBreakpoint URI_revive URI_toString host w location :: toHost ws
    | None => toHost ws
    end.
Proof.
  unfold DebugMain.toInternalBreakpoints. cbn.
  destruct (Breakpoint.location w) as [location|] eqn:Hloc; cbn; rewrite ?Hloc; reflexivity.
Qed.

(** X16: Whatever the wire breakpoints say, every breakpoint handed to the session
    manager is enabled, is bound to the host's current session, and has a
    column; there is one for each wire breakpoint that has a location.  In
    particular the [enabled] flag of a wire breakpoint is not carried over. *)
Theorem toInternalBreakpoints_always_enabled (ws : list (Breakpoint.t U)) :
  Forall (fun d =>
            SourceBreakpoint.enabled (DebugBreakpoint.origin d) = true
            ∧ DebugBreakpoint.session d
              = DebugSession.id <$> DebugMain.currentSession host
            ∧ is_Some (SourceBreakpoint.column
                         (SourceBreakpoint.raw (DebugBreakpoint.origin d))))
         (toHost ws)
  ∧ length (toHost ws)
    = length (List.filter (fun w => bool_decide (is_Some (Breakpoint.location w))) ws).
Proof.
  induction ws as [|w ws [IHall IHlen]]; [split; [constructor|reflexivity]|].
  rewrite toInternalBreakpoints_step. cbn [List.filter].
  destruct (Breakpoint.location w) as [location|]; cbn.
  - split; [|rewrite IHlen; reflexivity].
    constructor; [|exact IHall]. cbn. eauto.
  - split; assumption.
Qed.

(** X17: Every breakpoint sent to the extension side has a location whose range
    is empty: it ends where it starts, at the breakpoint's line and at its
    column, or at column 0 when it has none.  Translating the result back
    therefore drops nothing. *)
Theorem toTheiaPluginApiBreakpoints_located (bs : list SourceBreakpoint.t) :
  Forall2 (fun b w =>
             ∃ location,
               Breakpoint.location w = Some location
               ∧ Range.startLineNumber (Location.range location)
                 = SourceBreakpoint.line (SourceBreakpoint.raw b)
               ∧ Range.endLineNumber (Location.range location)
                 = SourceBreakpoint.line (SourceBreakpoint.raw b)
               ∧ Range.startColumn (Location.range location)
                 = default 0 (SourceBreakpoint.column (SourceBreakpoint.raw b))
               ∧ Range.endColumn (Location.range location)
                 = default 0 (SourceBreakpoint.column (SourceBreakpoint.raw b))
               ∧ Breakpoint.enabled w = SourceBreakpoint.enabled b)
          bs (toWire bs)
  ∧ length (toHost (toWire bs)) = length bs.
Proof.
  induction bs as [|b bs [IHall IHlen]]; [split; [constructor|reflexivity]|].
  change (toWire (b :: bs))
    with (DebugMain.toTheiaPluginApiBreakpoint URI_parse b :: toWire bs).
  rewrite toInternalBreakpoints_step. cbn. split; [|rewrite IHlen; reflexivity].
  constructor; [|exact IHall].
  eexists. split; [reflexivity|]. cbn.
  destruct (SourceBreakpoint.column (SourceBreakpoint.raw b)); repeat split.
Qed.

(** X18: The round trip from the host to the wire and back is not the identity:
    it returns each breakpoint enabled and with a column, 0 where it had
    none; its uri (when [vscode-uri] reads the uri string back as written),
    line, condition, hit condition and log message are unchanged. *)
Theorem round_trip_enables_and_sets_column (bs : list SourceBreakpoint.t)
    (Hcodec : Forall (fun b =>
                URI_toString (URI_revive (URI_parse (SourceBreakpoint.uri b)))
                = SourceBreakpoint.uri b) bs) :
  map DebugBreakpoint.origin (toHost (toWire bs))
  = map (fun b =>
           {| SourceBreakpoint.uri := SourceBreakpoint.uri b;
              SourceBreakpoint.enabled := true;
              SourceBreakpoint.raw :=
                {| SourceBreakpoint.line := SourceBreakpoint.line (SourceBreakpoint.raw b);
                   SourceBreakpoint.column :=
                     Some (default 0 (SourceBreakpoint.column (SourceBreakpoint.raw b)));
                   SourceBreakpoint.condition :=
                     SourceBreakpoint.condition (SourceBreakpoint.raw b);
                   SourceBreakpoint.hitCondition :=
                     SourceBreakpoint.hitCondition (SourceBreakpoint.raw b);
                   SourceBreakpoint.logMessage :=
                     SourceBreakpoint.logMessage (SourceBreakpoint.raw b) |} |}) bs.
Proof.
  induction Hcodec as [|b bs Hb _ IH]; [reflexivity|].
  change (toWire (b :: bs))
    with (DebugMain.toTheiaPluginApiBreakpoint URI_parse b :: toWire bs).
  rewrite toInternalBreakpoints_step. cbn. rewrite IH, Hb.
  destruct (SourceBreakpoint.column (SourceBreakpoint.raw b)); reflexivity.
Qed.

End HostTranslationFacts.

Lemma round_trip_enables_and_sets_column_witness :
  map DebugBreakpoint.origin
      (DebugMain.toInternalBreakpoints CanonicalUri.revive CanonicalUri.toString
         (MainExamples.hostOf [])
         (DebugMain.toTheiaPluginApiBreakpoints CanonicalUri.parse [MainExamples.bp_b7]))
  = [ {| SourceBreakpoint.uri := "file:///b";
         SourceBreakpoint.enabled := true;
         SourceBreakpoint.raw :=
           {| SourceBreakpoint.line := 7;
              SourceBreakpoint.column := Some 0;
              SourceBreakpoint.condition := None;
              SourceBreakpoint.hitCondition := None;
              SourceBreakpoint.logMessage := None |} |} ].
Proof.
  apply (round_trip_enables_and_sets_column CanonicalUri.parse CanonicalUri.revive
           CanonicalUri.toString (MainExamples.hostOf []) [MainExamples.bp_b7]).
  repeat constructor.
Defined.

Section HostContributorFacts.
Implicit Types (h : DebugMain.Contributors) (contributorId : string).

(** X19: Unregistering an id the host does not hold changes nothing and asks
    nothing of the contribution manager.  Registering a fresh id and then
    unregistering it restores the table, and the contribution manager has
    been asked to register and then to unregister the advertised type. *)
Theorem host_register_then_unregister h contributorId
    (description : DebuggerDescription.t)
    (Hfresh : DebugMain.proxyContributors h !! contributorId = None) :
  DebugMain.unregisterDebugConfigurationProvider contributorId h = h
  ∧ DebugMain.unregisterDebugConfigurationProvider contributorId
      (DebugMain.registerDebugConfigurationProvider contributorId description h)
    = {| DebugMain.proxyContributors := DebugMain.proxyContributors h;
         DebugMain.managerCalls :=
           (DebugMain.managerCalls h
            ++ [DebugMain.RegisterDebugPluginContributor
                  (DebuggerDescription.type description)
                  (DebugMain.proxyContributor contributorId description);
                DebugMain.UnregisterDebugPluginContributor
                  (DebuggerDescription.type description)])%list |}.
Proof.
  unfold DebugMain.unregisterDebugConfigurationProvider,
    DebugMain.registerDebugConfigurationProvider.
  rewrite Hfresh. split; [reflexivity|]. cbn.
  rewrite lookup_insert_eq. cbn.
  rewrite delete_insert_eq, delete_id by exact Hfresh.
  rewrite <- app_assoc. reflexivity.
Qed.

(** X20: Contributors are kept by id but unregistered by type: when two
    contributors advertise the same type, unregistering one asks the
    contribution manager to unregister that type while the other contributor
    is still in the table. *)
Theorem host_unregister_is_by_type h contributorId contributorId'
    (description description' : DebuggerDescription.t)
    (Hdistinct : contributorId ≠ contributorId')
    (Hsame : DebuggerDescription.type description
             = DebuggerDescription.type description') :
  let h2 := DebugMain.registerDebugConfigurationProvider contributorId' description'
              (DebugMain.registerDebugConfigurationProvider contributorId description h) in
  let h3 := DebugMain.unregisterDebugConfigurationProvider contributorId h2 in
  DebugMain.proxyContributors h3 !! contributorId = None
  ∧ DebugMain.proxyContributors h3 !! contributorId'
    = Some (DebugMain.proxyContributor contributorId' description')
  ∧ last (DebugMain.managerCalls h3)
    = Some (DebugMain.UnregisterDebugPluginContributor
              (DebuggerDescription.type description')).
Proof.
  intros h2 h3. subst h3 h2.
  unfold DebugMain.unregisterDebugConfigurationProvider,
    DebugMain.registerDebugConfigurationProvider. cbn.
  rewrite lookup_insert_ne by congruence. rewrite lookup_insert_eq. cbn.
  split; [apply lookup_delete_eq|]. split.
  - rewrite lookup_delete_ne by congruence. apply lookup_insert_eq.
  - rewrite last_snoc, Hsame. reflexivity.
Qed.

(** Every method of a proxy contributor addresses the extension side with
    the id the contributor was registered under, except
    [terminateDebugSession], which addresses a session. *)
Theorem proxyContributor_routes_by_id h contributorId
    (description : DebuggerDescription.t) :
  let h1 := DebugMain.registerDebugConfigurationProvider contributorId description h in
  ∃ contributor,
    DebugMain.proxyContributors h1 !! contributorId = Some contributor
    ∧ DebugPluginContributor.description contributor = description
    ∧ (∀ folder, DebugPluginContributor.provideDebugConfigurations contributor folder
                 = ProvideDebugConfigurations contributorId folder)
    ∧ (∀ config folder,
         DebugPluginContributor.resolveDebugConfiguration contributor config folder
         = ResolveDebugConfigurations contributorId config folder)
    ∧ DebugPluginContributor.getSupportedLanguages contributor
      = GetSupportedLanguages contributorId
    ∧ DebugPluginContributor.getSchemaAttributes contributor
      = GetSchemaAttributes contributorId
    ∧ DebugPluginContributor.getConfigurationSnippets contributor
      = GetConfigurationSnippets contributorId
    ∧ (∀ config, DebugPluginContributor.createDebugSession contributor config
                 = CreateDebugSession contributorId config)
    ∧ (∀ sessionId, DebugPluginContributor.terminateDebugSession contributor sessionId
                    = TerminateDebugSession sessionId).
Proof.
  intros h1. subst h1. eexists. split.
  - unfold DebugMain.registerDebugConfigurationProvider. cbn. apply lookup_insert_eq.
  - repeat split.
Qed.

End HostContributorFacts.

Lemma host_register_then_unregister_witness :
  DebugMain.unregisterDebugConfigurationProvider "uuid-" HostExamples.noContributors
  = HostExamples.noContributors
  ∧ DebugMain.unregisterDebugConfigurationProvider "uuid-"
      (DebugMain.registerDebugConfigurationProvider "uuid-" HostExamples.nodeDescription
         HostExamples.noContributors)
    = {| DebugMain.proxyContributors := ∅;
         DebugMain.managerCalls :=
           [DebugMain.RegisterDebugPluginContributor "node"
              (DebugMain.proxyContributor "uuid-" HostExamples.nodeDescription);
            DebugMain.UnregisterDebugPluginContributor "node"] |}.
Proof.
  apply (host_register_then_unregister HostExamples.noContributors "uuid-"
           HostExamples.nodeDescription).
  reflexivity.
Defined.

Lemma host_unregister_is_by_type_witness :
  DebugMain.proxyContributors
    (DebugMain.unregisterDebugConfigurationProvider "a"
       (DebugMain.registerDebugConfigurationProvider "b" HostExamples.nodeDescription
          (DebugMain.registerDebugConfigurationProvider "a" HostExamples.nodeDescription
             HostExamples.noContributors))) !! "a" = None
  ∧ DebugMain.proxyContributors
      (DebugMain.unregisterDebugConfigurationProvider "a"
         (DebugMain.registerDebugConfigurationProvider "b" HostExamples.nodeDescription
            (DebugMain.registerDebugConfigurationProvider "a" HostExamples.nodeDescription
               HostExamples.noContributors))) !! "b"
    = Some (DebugMain.proxyContributor "b" HostExamples.nodeDescription)
  ∧ last (DebugMain.managerCalls
            (DebugMain.unregisterDebugConfigurationProvider "a"
               (DebugMain.registerDebugConfigurationProvider "b"
                  HostExamples.nodeDescription
                  (DebugMain.registerDebugConfigurationProvider "a"
                     HostExamples.nodeDescription HostExamples.noContributors))))
    = Some (DebugMain.UnregisterDebugPluginContributor "node").
Proof.
  apply (host_unregister_is_by_type HostExamples.noContributors "a" "b"
           HostExamples.nodeDescription HostExamples.nodeDescription).
  - discriminate.
  - reflexivity.
Defined.

(** * Properties across the bridge *)

Section BridgeFacts.
Context {U : Type}.
Variable world : DebugExt.Collaborators.
Implicit Types (st : DebugExt.State U) (h : DebugMain.Contributors).

(** X21: A registration on the extension side, delivered to the host, yields a
    proxy contributor of the registered type whose configuration query is
    answered by the registered provider; once the registration is disposed
    and the unregistration delivered, the host no longer holds the proxy, and
    a query still made through it is answered with the empty list. *)
Theorem registration_round_trip st h debugType provider packageContribution pluginPath
    (folder : option string) :
  let contributionId := DebugExt.uuid_v4 world (DebugExt.uuids st) in
  let st1 := snd (DebugExt.registerDebugConfigurationProvider world debugType provider
                    packageContribution pluginPath st) in
  let st2 := snd (DebugExt.dispose_registration contributionId st1) in
  ∃ call call',
    DebugExt.effects st2
    = (DebugExt.effects st ++ [DebugExt.ProxyCall call; DebugExt.ProxyCall call'])%list
    ∧ let h1 := deliver_registration call h in
      let h2 := deliver_registration call' h1 in
      ∃ proxy,
        DebugMain.proxyContributors h1 !! contributionId = Some proxy
        ∧ DebuggerDescription.type (DebugPluginContributor.description proxy) = debugType
        ∧ fst (serve_on_ext world
                 (DebugPluginContributor.provideDebugConfigurations proxy folder) st1)
          = match DebugConfigurationProvider.provideDebugConfigurations provider with
            | Some (Ok (Some configurations)) => Ok (Configurations configurations)
            | Some (Ok None) => Ok (Configurations [])
            | Some (Err e) => Err e
            | None => Ok (Configurations [])
            end
        ∧ DebugMain.proxyContributors h2 !! contributionId = None
        ∧ serve_on_ext world
            (DebugPluginContributor.provideDebugConfigurations proxy folder) st2
          = (Ok (Configurations []), st2).
Proof.
  intros contributionId st1 st2. subst st2 st1 contributionId.
  unfold DebugExt.registerDebugConfigurationProvider, DebugExt.dispose_registration.
  run_ext. do 2 eexists. split; [rewrite <- app_assoc; reflexivity|].
  cbn. unfold DebugMain.unregisterDebugConfigurationProvider,
         DebugMain.registerDebugConfigurationProvider. cbn.
  rewrite !lookup_insert_eq. cbn.
  eexists. split; [reflexivity|]. split; [reflexivity|].
  cbn. unfold DebugExt.provideDebugConfigurations. run_ext.
  rewrite lookup_insert_eq, !lookup_delete_eq. cbn.
  split; [|split; reflexivity].
  destruct (DebugConfigurationProvider.provideDebugConfigurations provider)
    as [[[l|]|e]|]; reflexivity.
Qed.

(** X22: The host reports a created session under the id the extension side
    returned, so the start event fires with the session that was stored.  A
    destroy notification that arrives after [$terminateDebugSession] finds no
    session: the terminate event is not fired. *)
Theorem lifecycle_events_follow_the_registry st contributionId
    (debugConfiguration : DebugConfiguration.t) sessionId st1
    (hostSession : DebugSession.t)
    (Hcreate : DebugExt.createDebugSession world contributionId debugConfiguration st
               = (Ok sessionId, st1))
    (Hwrapped : DebugSession.id hostSession = sessionId) :
  (∃ session,
     PluginDebugSession.id session = sessionId
     ∧ deliver_all_to_ext (DebugMain.onDidCreateDebugSession hostSession) st1
       = (Ok tt, DebugExt.logged [DebugExt.FireStart session] st1)
     ∧ deliver_all_to_ext (DebugMain.onDidDestroyDebugSession hostSession) st1
       = (Ok tt, DebugExt.logged [DebugExt.FireTerminate session] st1))
  ∧ let st2 := snd (DebugExt.terminateDebugSession world sessionId st1) in
    deliver_all_to_ext (DebugMain.onDidDestroyDebugSession hostSession) st2
    = (Ok tt, st2).
Proof.
  destruct (createDebugSession_Ok world _ _ _ _ _ Hcreate) as [cp Hstored].
  assert (Hknown : DebugExt.debugSessions st1 !! sessionId
                   = Some (DebugExt.minted sessionId debugConfiguration cp))
    by (rewrite Hstored; apply lookup_insert_eq).
  split.
  - exists (DebugExt.minted sessionId debugConfiguration cp).
    split; [reflexivity|].
    unfold DebugMain.onDidCreateDebugSession, DebugMain.onDidDestroyDebugSession.
    cbn [deliver_all_to_ext deliver_to_ext]. rewrite Hwrapped.
    unfold DebugExt.sessionDidCreate, DebugExt.sessionDidDestroy. run_ext.
    rewrite Hknown. cbn. split; reflexivity.
  - intros st2.
    assert (Hgone : DebugExt.debugSessions st2 !! sessionId = None).
    { destruct (terminateDebugSession_known world st1 sessionId _ Hknown)
        as (mid & _ & _ & Hrun & Hfinal & _).
      subst st2. rewrite Hrun, Hfinal. apply lookup_delete_eq. }
    unfold DebugMain.onDidDestroyDebugSession.
    cbn [deliver_all_to_ext deliver_to_ext]. rewrite Hwrapped.
    unfold DebugExt.sessionDidDestroy. run_ext. rewrite Hgone. reflexivity.
Qed.

(** X23: The active-session relay sends the id of the host's current session, or
    [undefined] when there is none; on the extension side this fires one
    change event, with the registered session of that id if there is one. *)
Theorem active_session_relay st (current : option DebugSession.t) :
  deliver_all_to_ext (DebugMain.onDidChangeActiveDebugSession current) st
  = (Ok tt,
     DebugExt.logged
       [DebugExt.FireChangeActive
          match current with
          | Some session =>
              if String.eqb (DebugSession.id session) "" then None
              else DebugExt.debugSessions st !! DebugSession.id session
          | None => None
          end] st).
Proof.
  unfold DebugMain.onDidChangeActiveDebugSession.
  cbn [deliver_all_to_ext deliver_to_ext].
  unfold DebugExt.sessionDidChange. run_ext.
  destruct current as [session|]; [|reflexivity].
  cbn. destruct (String.eqb (DebugSession.id session) ""); reflexivity.
Qed.

End BridgeFacts.

Lemma lifecycle_events_follow_the_registry_witness :
  (∃ session,
     PluginDebugSession.id session = "uuid-i"
     ∧ deliver_all_to_ext (DebugMain.onDidCreateDebugSession MainExamples.liveSession)
         ExtExamples.with_session
       = (Ok tt, DebugExt.logged [DebugExt.FireStart session] ExtExamples.with_session)
     ∧ deliver_all_to_ext (DebugMain.onDidDestroyDebugSession MainExamples.liveSession)
         ExtExamples.with_session
       = (Ok tt, DebugExt.logged [DebugExt.FireTerminate session] ExtExamples.with_session))
  ∧ deliver_all_to_ext (DebugMain.onDidDestroyDebugSession MainExamples.liveSession)
      (snd (DebugExt.terminateDebugSession ExtExamples.world "uuid-i"
              ExtExamples.with_session))
    = (Ok tt,
       snd (DebugExt.terminateDebugSession ExtExamples.world "uuid-i"
              ExtExamples.with_session)).
Proof.
  apply (lifecycle_events_follow_the_registry ExtExamples.world ExtExamples.registered
           "uuid-" ExtExamples.launch "uuid-i" ExtExamples.with_session
           MainExamples.liveSession).
  - vm_compute. reflexivity.
  - reflexivity.
Defined.

(** * Starting a debug session from the extension side *)

Section StartDebuggingFacts.
Context {U : Type}.
Variable URI_revive : U → U.
Variable URI_toString : U → string.
Variable start : DebugSessionOptions.t → Result (option DebugSession.t).

Lemma fold_pick_named name (all : list DebugSessionOptions.t)
    (found : option DebugConfiguration.t) :
  fold_left (DebugMain.pick_named name) all found
  = match last (filter (fun c => DebugConfiguration.name c = name)
                       (DebugSessionOptions.configuration <$> all)) with
    | Some c => Some c
    | None => found
    end.
Proof.
  revert found. induction all as [|options all IH]; intros found; [reflexivity|].
  cbn [fold_left]. rewrite IH. cbn [fmap list_fmap].
  unfold DebugMain.pick_named. rewrite filter_cons.
  destruct (String.eqb_spec
              (DebugConfiguration.name (DebugSessionOptions.configuration options)) name)
    as [Heq|Hne].
  - rewrite decide_True by exact Heq.
    destruct (filter _ (DebugSessionOptions.configuration <$> all)) as [|c l] eqn:Hf.
    + reflexivity.
    + change (last (DebugSessionOptions.configuration options :: c :: l))
        with (last (c :: l)).
      destruct (last (c :: l)) eqn:Hl; [reflexivity|].
      apply last_None in Hl. discriminate.
  - rewrite decide_False by exact Hne. reflexivity.
Qed.

(** X24: Started by name, the configuration used is the last one of that name
    among all configurations; the folder handed to the session manager is the
    folder of the call, not the folder the configuration was found under.
    With no configuration of that name the call resolves with [false] and the
    session manager is not asked.  It resolves with [true] exactly when the
    session manager yields a session, and rejects as the manager rejects. *)
Theorem startDebugging_by_name (all : list DebugSessionOptions.t)
    (folder : option (WorkspaceFolder.t U)) (name : string) :
  DebugMain.startDebugging URI_revive URI_toString all start folder (inl name)
  = match last (filter (fun c => DebugConfiguration.name c = name)
                       (DebugSessionOptions.configuration <$> all)) with
    | None => Ok false
    | Some configuration =>
        match start {| DebugSessionOptions.configuration := configuration;
                       DebugSessionOptions.workspaceFolderUri :=
                         (fun f => URI_toString (URI_revive (WorkspaceFolder.uri f)))
                           <$> folder |} with
        | Ok (Some _) => Ok true
        | Ok None => Ok false
        | Err e => Err e
        end
    end.
Proof.
  unfold DebugMain.startDebugging, DebugMain.find_named.
  rewrite fold_pick_named.
  destruct (last _) as [configuration|]; [|reflexivity].
  destruct (start _) as [[session|]|e]; reflexivity.
Qed.

End StartDebuggingFacts.

Example startDebugging_last_launch :
  DebugMain.find_named HostExamples.configurations "Launch"
  = Some HostExamples.launch_again
  ∧ DebugMain.startDebugging CanonicalUri.revive CanonicalUri.toString
      HostExamples.configurations (fun _ => Err "start must not run") None (inl "Run")
    = Ok false.
Proof. split; reflexivity. Qed.

(** * A further property of the executable resolver *)

Section ResolverFailureFacts.
Import PluginDebugAdapterContribution ResolverSpec.

(** X25: Resolution fails exactly when no program is selected, that is when
    neither the platform record nor the unqualified metadata names a
    non-empty program; a runtime alone does not make an executable.  When it
    succeeds the descriptor is always of the command shape. *)
Theorem provideDebugAdapterExecutable_needs_a_program
    (path_join : string → string → string) (process : Process)
    (pc : PluginPackageDebuggersContribution) (pluginPath : string) :
  if truthy_str (selected process pc program)
  then ∃ command args,
         provideDebugAdapterExecutable path_join process pc pluginPath
         = Ok (ExecCommand command args)
  else provideDebugAdapterExecutable path_join process pc pluginPath
       = Err "It is not possible to provide debug adapter executable. Program not found.".
Proof.
  unfold provideDebugAdapterExecutable.
  rewrite !or_str_and_then_selected.
  destruct (truthy_str (selected process pc program)); cbn [negb]; cbv iota.
  - eauto.
  - reflexivity.
Qed.

End ResolverFailureFacts.

Example runtime_without_program_fails :
  PluginDebugAdapterContribution.provideDebugAdapterExecutable posix_join
    ResolverExamples.linuxProcess
    {| type := "node"; label := None; languages := None;
       base := {| program := Some ""; args := None;
                  runtime := Some "node"; runtimeArgs := None |};
       winx86 := None; win := None; windows := None; osx := None; linux := None;
       configurationSnippets := None; adapterExecutableCommand := None |} "/p"
  = Err "It is not possible to provide debug adapter executable. Program not found.".
Proof. reflexivity. Qed.
